(** * Dibujar-Sobre-Mapas: the drawing canvas and its interaction handlers

    A shallow embedding of [src/components/drawing-canvas.tsx] and of the
    callbacks of [src/components/map-drawing-tool.tsx] it is wired to.

    JavaScript numbers are modelled as real numbers ([R]): the geometry is
    stated over the reals, comparisons are the decidable order of [R], and
    [Math.sqrt], [Math.atan2], [Math.round], [Math.min] and [Math.max] are
    their real-valued counterparts.  React state is modelled by one record
    holding the [useState] cells of both components; a handler is a function
    from the state of the render it was created in to the next state.  A
    handler that would throw (reading a field of [undefined]) returns
    [None].  What the handlers do to the page only (the drawing on the
    canvas, the shape of the cursor) is left out. *)

From Stdlib Require Import Reals Lra Lia ZArith List String Bool Arith.
Import ListNotations.

Local Open Scope R_scope.

(** ** Numbers *)

Definition Rleb (a b : R) : bool := if Rle_dec a b then true else false.
Definition Rltb (a b : R) : bool := if Rlt_dec a b then true else false.
Definition Reqb (a b : R) : bool := if Req_dec_T a b then true else false.

(** [a || d] on numbers: [0] is falsy. *)
Definition orDefault (a d : R) : R := if Reqb a 0 then d else a.

(** [Math.round]: the nearest integer, halves rounded up. *)
Definition round (a : R) : R := IZR (Zfloor (a + 1 / 2)).

(** [Math.atan2 (dy, dx)], in radians, in (-PI, PI]. *)
Definition atan2 (dy dx : R) : R :=
  if Rltb 0 dx then atan (dy / dx)
  else if Rltb dx 0 then
    (if Rleb 0 dy then atan (dy / dx) + PI else atan (dy / dx) - PI)
  else if Rltb 0 dy then PI / 2
  else if Rltb dy 0 then - (PI / 2)
  else 0.

(** [Math.floor (n / 2)] on a length. *)
Definition midIndexOf {A : Type} (l : list A) : nat := Nat.div (List.length l) 2.

(** ** Option as the exception monad of the handlers *)

Definition bind {A B : Type} (m : option A) (k : A -> option B) : option B :=
  match m with
  | Some a => k a
  | None => None
  end.

Notation "x <- m ;; k" := (bind m (fun x => k))
  (at level 61, m at next level, right associativity).

(** ** Data model *)

Record Point := mkPoint { x : R; y : R }.

Record Size := mkSize { width : R; height : R }.

Module Line.
Record Line := mk {
  id : string;
  points : list Point;
  color : string;
  opacity : R;
  label : string;
  labelRotation : R;
  labelPosition : option Point;
  thickness : R
}.

Definition setPoints (v : list Point) (l : Line) : Line :=
  mk (id l) v (color l) (opacity l) (label l) (labelRotation l)
     (labelPosition l) (thickness l).

Definition setLabelRotation (v : R) (l : Line) : Line :=
  mk (id l) (points l) (color l) (opacity l) (label l) v
     (labelPosition l) (thickness l).

Definition setLabelPosition (v : option Point) (l : Line) : Line :=
  mk (id l) (points l) (color l) (opacity l) (label l) (labelRotation l)
     v (thickness l).

(** [if (line.label)]: the empty string is falsy. *)
Definition hasLabel (l : Line) : bool :=
  match label l with
  | EmptyString => false
  | String _ _ => true
  end.
End Line.

Abbreviation Line := Line.Line.

Inductive Mode : Type := draw | pan | rotate | drag.

Definition Mode_eqb (a b : Mode) : bool :=
  match a, b with
  | draw, draw | pan, pan | rotate, rotate | drag, drag => true
  | _, _ => false
  end.

Record MouseEvent := mkMouseEvent {
  button : Z;
  shiftKey : bool;
  clientX : R;
  clientY : R
}.

Record WheelEvent := mkWheelEvent {
  deltaY : R;
  wheelClientX : R;
  wheelClientY : R
}.

(** The [useState] cells of [MapDrawingTool] ([lines] to [panOffset]) and of
    [DrawingCanvas] ([canvasSize] to [cursorPosition]); [canvasRect] is the
    top-left corner of the canvas' bounding client rectangle. *)
Record State := mkState {
  lines : list Line;
  currentLine : option Line;
  isDrawing : bool;
  selectedLine : option Line;
  color : string;
  opacity : R;
  label : string;
  labelRotation : R;
  zoomLevel : R;
  isRotatingLabel : bool;
  thickness : R;
  panOffset : Point;
  canvasSize : Size;
  imageSize : Size;
  scale : R;
  isPanning : bool;
  lastPanPoint : Point;
  hoveredLabel : option string;
  isDraggingLabel : bool;
  rotationStartAngle : R;
  rotationCenter : option Point;
  interactionMode : Mode;
  cursorPosition : option Point;
  canvasRect : Point
}.

Definition setLines (v : list Line) (s : State) : State :=
  mkState v (currentLine s) (isDrawing s) (selectedLine s) (color s)
    (opacity s) (label s) (labelRotation s) (zoomLevel s) (isRotatingLabel s)
    (thickness s) (panOffset s) (canvasSize s) (imageSize s) (scale s)
    (isPanning s) (lastPanPoint s) (hoveredLabel s) (isDraggingLabel s)
    (rotationStartAngle s) (rotationCenter s) (interactionMode s)
    (cursorPosition s) (canvasRect s).

Definition setCurrentLine (v : option Line) (s : State) : State :=
  mkState (lines s) v (isDrawing s) (selectedLine s) (color s) (opacity s)
    (label s) (labelRotation s) (zoomLevel s) (isRotatingLabel s)
    (thickness s) (panOffset s) (canvasSize s) (imageSize s) (scale s)
    (isPanning s) (lastPanPoint s) (hoveredLabel s) (isDraggingLabel s)
    (rotationStartAngle s) (rotationCenter s) (interactionMode s)
    (cursorPosition s) (canvasRect s).

Definition setIsDrawing (v : bool) (s : State) : State :=
  mkState (lines s) (currentLine s) v (selectedLine s) (color s) (opacity s)
    (label s) (labelRotation s) (zoomLevel s) (isRotatingLabel s)
    (thickness s) (panOffset s) (canvasSize s) (imageSize s) (scale s)
    (isPanning s) (lastPanPoint s) (hoveredLabel s) (isDraggingLabel s)
    (rotationStartAngle s) (rotationCenter s) (interactionMode s)
    (cursorPosition s) (canvasRect s).

Definition setSelectedLine (v : option Line) (s : State) : State :=
  mkState (lines s) (currentLine s) (isDrawing s) v (color s) (opacity s)
    (label s) (labelRotation s) (zoomLevel s) (isRotatingLabel s)
    (thickness s) (panOffset s) (canvasSize s) (imageSize s) (scale s)
    (isPanning s) (lastPanPoint s) (hoveredLabel s) (isDraggingLabel s)
    (rotationStartAngle s) (rotationCenter s) (interactionMode s)
    (cursorPosition s) (canvasRect s).

Definition setColor (v : string) (s : State) : State :=
  mkState (lines s) (currentLine s) (isDrawing s) (selectedLine s) v
    (opacity s) (label s) (labelRotation s) (zoomLevel s) (isRotatingLabel s)
    (thickness s) (panOffset s) (canvasSize s) (imageSize s) (scale s)
    (isPanning s) (lastPanPoint s) (hoveredLabel s) (isDraggingLabel s)
    (rotationStartAngle s) (rotationCenter s) (interactionMode s)
    (cursorPosition s) (canvasRect s).

Definition setOpacity (v : R) (s : State) : State :=
  mkState (lines s) (currentLine s) (isDrawing s) (selectedLine s) (color s) v
    (label s) (labelRotation s) (zoomLevel s) (isRotatingLabel s)
    (thickness s) (panOffset s) (canvasSize s) (imageSize s) (scale s)
    (isPanning s) (lastPanPoint s) (hoveredLabel s) (isDraggingLabel s)
    (rotationStartAngle s) (rotationCenter s) (interactionMode s)
    (cursorPosition s) (canvasRect s).

Definition setLabel (v : string) (s : State) : State :=
  mkState (lines s) (currentLine s) (isDrawing s) (selectedLine s) (color s)
    (opacity s) v (labelRotation s) (zoomLevel s) (isRotatingLabel s)
    (thickness s) (panOffset s) (canvasSize s) (imageSize s) (scale s)
    (isPanning s) (lastPanPoint s) (hoveredLabel s) (isDraggingLabel s)
    (rotationStartAngle s) (rotationCenter s) (interactionMode s)
    (cursorPosition s) (canvasRect s).

Definition setLabelRotation (v : R) (s : State) : State :=
  mkState (lines s) (currentLine s) (isDrawing s) (selectedLine s) (color s)
    (opacity s) (label s) v (zoomLevel s) (isRotatingLabel s) (thickness s)
    (panOffset s) (canvasSize s) (imageSize s) (scale s) (isPanning s)
    (lastPanPoint s) (hoveredLabel s) (isDraggingLabel s)
    (rotationStartAngle s) (rotationCenter s) (interactionMode s)
    (cursorPosition s) (canvasRect s).

Definition setZoomLevel (v : R) (s : State) : State :=
  mkState (lines s) (currentLine s) (isDrawing s) (selectedLine s) (color s)
    (opacity s) (label s) (labelRotation s) v (isRotatingLabel s)
    (thickness s) (panOffset s) (canvasSize s) (imageSize s) (scale s)
    (isPanning s) (lastPanPoint s) (hoveredLabel s) (isDraggingLabel s)
    (rotationStartAngle s) (rotationCenter s) (interactionMode s)
    (cursorPosition s) (canvasRect s).

Definition setIsRotatingLabel (v : bool) (s : State) : State :=
  mkState (lines s) (currentLine s) (isDrawing s) (selectedLine s) (color s)
    (opacity s) (label s) (labelRotation s) (zoomLevel s) v (thickness s)
    (panOffset s) (canvasSize s) (imageSize s) (scale s) (isPanning s)
    (lastPanPoint s) (hoveredLabel s) (isDraggingLabel s)
    (rotationStartAngle s) (rotationCenter s) (interactionMode s)
    (cursorPosition s) (canvasRect s).

Definition setThickness (v : R) (s : State) : State :=
  mkState (lines s) (currentLine s) (isDrawing s) (selectedLine s) (color s)
    (opacity s) (label s) (labelRotation s) (zoomLevel s) (isRotatingLabel s)
    v (panOffset s) (canvasSize s) (imageSize s) (scale s) (isPanning s)
    (lastPanPoint s) (hoveredLabel s) (isDraggingLabel s)
    (rotationStartAngle s) (rotationCenter s) (interactionMode s)
    (cursorPosition s) (canvasRect s).

Definition setPanOffset (v : Point) (s : State) : State :=
  mkState (lines s) (currentLine s) (isDrawing s) (selectedLine s) (color s)
    (opacity s) (label s) (labelRotation s) (zoomLevel s) (isRotatingLabel s)
    (thickness s) v (canvasSize s) (imageSize s) (scale s) (isPanning s)
    (lastPanPoint s) (hoveredLabel s) (isDraggingLabel s)
    (rotationStartAngle s) (rotationCenter s) (interactionMode s)
    (cursorPosition s) (canvasRect s).

Definition setIsPanning (v : bool) (s : State) : State :=
  mkState (lines s) (currentLine s) (isDrawing s) (selectedLine s) (color s)
    (opacity s) (label s) (labelRotation s) (zoomLevel s) (isRotatingLabel s)
    (thickness s) (panOffset s) (canvasSize s) (imageSize s) (scale s) v
    (lastPanPoint s) (hoveredLabel s) (isDraggingLabel s)
    (rotationStartAngle s) (rotationCenter s) (interactionMode s)
    (cursorPosition s) (canvasRect s).

Definition setLastPanPoint (v : Point) (s : State) : State :=
  mkState (lines s) (currentLine s) (isDrawing s) (selectedLine s) (color s)
    (opacity s) (label s) (labelRotation s) (zoomLevel s) (isRotatingLabel s)
    (thickness s) (panOffset s) (canvasSize s) (imageSize s) (scale s)
    (isPanning s) v (hoveredLabel s) (isDraggingLabel s)
    (rotationStartAngle s) (rotationCenter s) (interactionMode s)
    (cursorPosition s) (canvasRect s).

Definition setHoveredLabel (v : option string) (s : State) : State :=
  mkState (lines s) (currentLine s) (isDrawing s) (selectedLine s) (color s)
    (opacity s) (label s) (labelRotation s) (zoomLevel s) (isRotatingLabel s)
    (thickness s) (panOffset s) (canvasSize s) (imageSize s) (scale s)
    (isPanning s) (lastPanPoint s) v (isDraggingLabel s)
    (rotationStartAngle s) (rotationCenter s) (interactionMode s)
    (cursorPosition s) (canvasRect s).

Definition setIsDraggingLabel (v : bool) (s : State) : State :=
  mkState (lines s) (currentLine s) (isDrawing s) (selectedLine s) (color s)
    (opacity s) (label s) (labelRotation s) (zoomLevel s) (isRotatingLabel s)
    (thickness s) (panOffset s) (canvasSize s) (imageSize s) (scale s)
    (isPanning s) (lastPanPoint s) (hoveredLabel s) v (rotationStartAngle s)
    (rotationCenter s) (interactionMode s) (cursorPosition s) (canvasRect s).

Definition setRotationStartAngle (v : R) (s : State) : State :=
  mkState (lines s) (currentLine s) (isDrawing s) (selectedLine s) (color s)
    (opacity s) (label s) (labelRotation s) (zoomLevel s) (isRotatingLabel s)
    (thickness s) (panOffset s) (canvasSize s) (imageSize s) (scale s)
    (isPanning s) (lastPanPoint s) (hoveredLabel s) (isDraggingLabel s) v
    (rotationCenter s) (interactionMode s) (cursorPosition s) (canvasRect s).

Definition setRotationCenter (v : option Point) (s : State) : State :=
  mkState (lines s) (currentLine s) (isDrawing s) (selectedLine s) (color s)
    (opacity s) (label s) (labelRotation s) (zoomLevel s) (isRotatingLabel s)
    (thickness s) (panOffset s) (canvasSize s) (imageSize s) (scale s)
    (isPanning s) (lastPanPoint s) (hoveredLabel s) (isDraggingLabel s)
    (rotationStartAngle s) v (interactionMode s) (cursorPosition s)
    (canvasRect s).

Definition setInteractionMode (v : Mode) (s : State) : State :=
  mkState (lines s) (currentLine s) (isDrawing s) (selectedLine s) (color s)
    (opacity s) (label s) (labelRotation s) (zoomLevel s) (isRotatingLabel s)
    (thickness s) (panOffset s) (canvasSize s) (imageSize s) (scale s)
    (isPanning s) (lastPanPoint s) (hoveredLabel s) (isDraggingLabel s)
    (rotationStartAngle s) (rotationCenter s) v (cursorPosition s)
    (canvasRect s).

Definition setCursorPosition (v : option Point) (s : State) : State :=
  mkState (lines s) (currentLine s) (isDrawing s) (selectedLine s) (color s)
    (opacity s) (label s) (labelRotation s) (zoomLevel s) (isRotatingLabel s)
    (thickness s) (panOffset s) (canvasSize s) (imageSize s) (scale s)
    (isPanning s) (lastPanPoint s) (hoveredLabel s) (isDraggingLabel s)
    (rotationStartAngle s) (rotationCenter s) (interactionMode s) v
    (canvasRect s).

(** ** Geometry *)

(** [distanceToLineSegment]. *)
Definition distanceToLineSegment (point lineStart lineEnd : Point) : R :=
  let A := x point - x lineStart in
  let B := y point - y lineStart in
  let C := x lineEnd - x lineStart in
  let D := y lineEnd - y lineStart in
  let dot := A * C + B * D in
  let lenSq := C * C + D * D in
  let param := if negb (Reqb lenSq 0) then dot / lenSq else -1 in
  let xx :=
    if Rltb param 0 then x lineStart
    else if Rltb 1 param then x lineEnd
    else x lineStart + param * C in
  let yy :=
    if Rltb param 0 then y lineStart
    else if Rltb 1 param then y lineEnd
    else y lineStart + param * D in
  let dx := x point - xx in
  let dy := y point - yy in
  sqrt (dx * dx + dy * dy).

(** The same function with every division checked: [None] as soon as a
    divisor is zero. *)
Definition checkedDiv (a b : R) : option R :=
  if Reqb b 0 then None else Some (a / b).

Definition distanceToLineSegmentChecked (point lineStart lineEnd : Point)
  : option R :=
  let A := x point - x lineStart in
  let B := y point - y lineStart in
  let C := x lineEnd - x lineStart in
  let D := y lineEnd - y lineStart in
  let dot := A * C + B * D in
  let lenSq := C * C + D * D in
  param <- (if negb (Reqb lenSq 0) then checkedDiv dot lenSq else Some (-1)) ;;
  let xx :=
    if Rltb param 0 then x lineStart
    else if Rltb 1 param then x lineEnd
    else x lineStart + param * C in
  let yy :=
    if Rltb param 0 then y lineStart
    else if Rltb 1 param then y lineEnd
    else y lineStart + param * D in
  let dx := x point - xx in
  let dy := y point - yy in
  Some (sqrt (dx * dx + dy * dy)).

(** Euclidean distance between two points. *)
Definition distance (p q : Point) : R :=
  sqrt ((x p - x q) * (x p - x q) + (y p - y q) * (y p - y q)).

(** The thicknesses of the tool: [LineThickness = 1 | 3 | 5]. *)
Definition LineThickness (t : R) : Prop := t = 1 \/ t = 3 \/ t = 5.

(** ** The callbacks of [MapDrawingTool]

    [now] stands for [Date.now().toString()], the identifier given to a new
    line. *)

Definition handleStartDrawing (now : string) (px py : R) (s : State) : State :=
  match selectedLine s with
  | Some _ => setSelectedLine None s
  | None =>
      let newLine :=
        Line.mk now [mkPoint px py] (color s) (opacity s / 100) EmptyString
                (labelRotation s) None (thickness s) in
      setIsDrawing true (setCurrentLine (Some newLine) s)
  end.

Definition handleDrawing (px py : R) (s : State) : State :=
  match isDrawing s, currentLine s with
  | true, Some cl =>
      setCurrentLine
        (Some (Line.setPoints (Line.points cl ++ [mkPoint px py]) cl)) s
  | _, _ => s
  end.

Definition handleEndDrawing (s : State) : option State :=
  match isDrawing s, currentLine s with
  | true, Some cl =>
      s1 <- (if (2 <=? List.length (Line.points cl))%nat then
               midPoint <- nth_error (Line.points cl)
                                     (midIndexOf (Line.points cl)) ;;
               let newLine :=
                 Line.setLabelPosition
                   (Some (mkPoint (x midPoint) (y midPoint - 15))) cl in
               Some (setLines (lines s ++ [newLine]) s)
             else Some (setLines (lines s ++ [cl]) s)) ;;
      Some (setIsDrawing false (setCurrentLine None s1))
  | _, _ => Some s
  end.

Definition handleSelectLine (line : Line) (s : State) : State :=
  setThickness (orDefault (Line.thickness line) 3)
    (setLabelRotation (orDefault (Line.labelRotation line) 0)
       (setLabel (Line.label line)
          (setOpacity (Line.opacity line * 100)
             (setColor (Line.color line)
                (setSelectedLine (Some line) s))))).

Definition handleZoomIn (s : State) : State :=
  setZoomLevel (Rmin (zoomLevel s + 1 / 10) 3) s.

Definition handleZoomOut (s : State) : State :=
  setZoomLevel (Rmax (zoomLevel s - 1 / 10) (1 / 2)) s.

Definition handleStartRotatingLabel (s : State) : State :=
  setIsRotatingLabel true s.

Definition handleRotateLabel (angle : R) (s : State) : State :=
  let s1 := setLabelRotation angle s in
  match selectedLine s with
  | Some sel =>
      setLines
        (map (fun line =>
                if String.eqb (Line.id line) (Line.id sel)
                then Line.setLabelRotation angle line else line)
             (lines s)) s1
  | None => s1
  end.

Definition handleEndRotatingLabel (s : State) : State :=
  setIsRotatingLabel false s.

Definition handleUpdateLabelPosition (lineId : string) (position : Point)
    (s : State) : State :=
  setLines
    (map (fun line =>
            if String.eqb (Line.id line) lineId
            then Line.setLabelPosition (Some position) line else line)
         (lines s)) s.

(** ** The viewport transform of [DrawingCanvas] *)

Definition effectiveScale (s : State) : R := scale s * zoomLevel s.

Definition imageX (s : State) : R :=
  (width (canvasSize s) - width (imageSize s) * zoomLevel s) / 2
  + x (panOffset s).

Definition imageY (s : State) : R :=
  (height (canvasSize s) - height (imageSize s) * zoomLevel s) / 2
  + y (panOffset s).

(** The origin [drawCanvas] draws the image and the lines at, for an image of
    natural size [imgWidth] x [imgHeight]. *)
Definition drawCanvasOrigin (imgWidth imgHeight : R) (s : State) : Point :=
  let scaledWidth := imgWidth * effectiveScale s in
  let scaledHeight := imgHeight * effectiveScale s in
  mkPoint ((width (canvasSize s) - scaledWidth) / 2 + x (panOffset s))
          ((height (canvasSize s) - scaledHeight) / 2 + y (panOffset s)).

(** The canvas position [drawLine] gives to an image point, from the offset
    it is passed. *)
Definition drawLinePoint (offsetX offsetY scl : R) (p : Point) : Point :=
  mkPoint (offsetX + x p * scl) (offsetY + y p * scl).

(** Image space to screen space, as the hit tests compute it. *)
Definition imageToScreen (s : State) (p : Point) : Point :=
  drawLinePoint (imageX s) (imageY s) (effectiveScale s) p.

Definition getCanvasCoordinates (e : MouseEvent) (s : State) : Point :=
  mkPoint (clientX e - x (canvasRect s)) (clientY e - y (canvasRect s)).

(** The bounds check of [getImageCoordinates]. *)
Definition withinImageBounds (s : State) (canvasCoords : Point) : bool :=
  Rleb (imageX s) (x canvasCoords)
  && Rleb (x canvasCoords) (imageX s + width (imageSize s) * zoomLevel s)
  && Rleb (imageY s) (y canvasCoords)
  && Rleb (y canvasCoords) (imageY s + height (imageSize s) * zoomLevel s).

Definition getImageCoordinates (s : State) (canvasCoords : Point) : Point :=
  if withinImageBounds s canvasCoords then
    mkPoint ((x canvasCoords - imageX s) / effectiveScale s)
            ((y canvasCoords - imageY s) / effectiveScale s)
  else mkPoint 0 0.

(** ** Hit testing *)

(** The label anchor in screen space: the custom position when there is one,
    the middle point raised by 15 otherwise.  The source repeats this
    computation in [isPointNearLabel], [isPointNearRotationControl] and
    [handleMouseDown]; [points[midIndex]] of an empty line is [undefined]
    and reading its [x] throws. *)
Definition labelScreenPosition (s : State) (line : Line) : option Point :=
  match Line.labelPosition line with
  | Some lp =>
      Some (mkPoint (imageX s + x lp * effectiveScale s)
                    (imageY s + y lp * effectiveScale s))
  | None =>
      midPoint <- nth_error (Line.points line)
                            (midIndexOf (Line.points line)) ;;
      Some (mkPoint (imageX s + x midPoint * effectiveScale s)
                    (imageY s + y midPoint * effectiveScale s - 15))
  end.

(** The threshold of [findLineAtPoint]. *)
Definition hitThreshold (s : State) (line : Line) : R :=
  (orDefault (Line.thickness line) 3 * 2) / (scale s * zoomLevel s).

(** The inner loop of [findLineAtPoint] over the consecutive pairs. *)
Fixpoint segmentHit (point : Point) (threshold : R) (pts : list Point)
  : bool :=
  match pts with
  | p1 :: ((p2 :: _) as rest) =>
      if Rltb (distanceToLineSegment point p1 p2) threshold then true
      else segmentHit point threshold rest
  | _ => false
  end.

Definition lineHit (s : State) (point : Point) (line : Line) : bool :=
  segmentHit point (hitThreshold s line) (Line.points line).

Fixpoint findLineIn (s : State) (point : Point) (ls : list Line)
  : option Line :=
  match ls with
  | [] => None
  | line :: rest =>
      if lineHit s point line then Some line else findLineIn s point rest
  end.

Definition findLineAtPoint (s : State) (point : Point) : option Line :=
  findLineIn s point (lines s).

(** ** The pointer handlers of [DrawingCanvas] *)

Section Handlers.

(** [ctx.measureText (text).width] in the font of the labels. *)
Variable measureText : string -> R.

Definition isPointNearLabel (s : State) (canvasCoords : Point)
    (line : Line) : option bool :=
  if negb (Line.hasLabel line) then Some false
  else
    labelPos <- labelScreenPosition s line ;;
    let textWidth := measureText (Line.label line) in
    let textHeight := 14 in
    let padding := 4 in
    let rectX := x labelPos - textWidth / 2 - padding in
    let rectY := y labelPos - textHeight / 2 - padding in
    let rectWidth := textWidth + padding * 2 in
    let rectHeight := textHeight + padding * 2 in
    Some (Rleb rectX (x canvasCoords)
          && Rleb (x canvasCoords) (rectX + rectWidth)
          && Rleb rectY (y canvasCoords)
          && Rleb (y canvasCoords) (rectY + rectHeight)).

Definition isPointNearRotationControl (s : State) (canvasCoords : Point)
    (line : Line) : option bool :=
  if negb (Line.hasLabel line) then Some false
  else
    labelPos <- labelScreenPosition s line ;;
    let textWidth := measureText (Line.label line) in
    let padding := 4 in
    let iconSize := 16 in
    let iconX := x labelPos + textWidth / 2 + padding + iconSize / 2 in
    let iconY := y labelPos in
    let dx := x canvasCoords - iconX in
    let dy := y canvasCoords - iconY in
    let dist := sqrt (dx * dx + dy * dy) in
    Some (Rleb dist (iconSize / 2)).

(** The loop of [handleMouseDown] over the labels: the first line with a
    label under the pointer. *)
Fixpoint findLabelAt (s : State) (canvasCoords : Point) (ls : list Line)
  : option (option Line) :=
  match ls with
  | [] => Some None
  | line :: rest =>
      near <- (if Line.hasLabel line
               then isPointNearLabel s canvasCoords line
               else Some false) ;;
      if near then Some (Some line) else findLabelAt s canvasCoords rest
  end.

(** The loop of [handleMouseMove] over the labels: the first line whose
    label or rotation control is under the pointer. *)
Fixpoint findHoveredAt (s : State) (canvasCoords : Point) (ls : list Line)
  : option (option Line) :=
  match ls with
  | [] => Some None
  | line :: rest =>
      if Line.hasLabel line then
        nearLabel <- isPointNearLabel s canvasCoords line ;;
        near <- (if nearLabel then Some true
                 else isPointNearRotationControl s canvasCoords line) ;;
        if near then Some (Some line)
        else findHoveredAt s canvasCoords rest
      else findHoveredAt s canvasCoords rest
  end.

Definition isPanTrigger (e : MouseEvent) : bool :=
  (button e =? 1)%Z || ((button e =? 0)%Z && shiftKey e).

(** [selectedLine && hoveredLabel === selectedLine.id]. *)
Definition hoveredSelected (s : State) : option Line :=
  match selectedLine s, hoveredLabel s with
  | Some sel, Some h => if String.eqb h (Line.id sel) then Some sel else None
  | _, _ => None
  end.

(** The part of [handleMouseDown] on the selected line: the rotation
    control first, then the label.  [Some None] when neither is under the
    pointer and the handler goes on. *)
Definition startOnSelected (s0 s : State) (canvasCoords : Point)
  : option (option State) :=
  match hoveredSelected s0 with
  | Some sel =>
      nearControl <- isPointNearRotationControl s0 canvasCoords sel ;;
      if nearControl then
        center <- labelScreenPosition s0 sel ;;
        let dx := x canvasCoords - x center in
        let dy := y canvasCoords - y center in
        Some (Some
          (setRotationStartAngle (atan2 dy dx * (180 / PI))
             (setRotationCenter (Some center)
                (handleStartRotatingLabel
                   (setInteractionMode rotate s)))))
      else
        nearLabel <- isPointNearLabel s0 canvasCoords sel ;;
        if nearLabel then
          Some (Some (setInteractionMode drag (setIsDraggingLabel true s)))
        else Some None
  | None => Some None
  end.

Definition handleMouseDown (now : string) (e : MouseEvent) (s0 : State)
  : option State :=
  let canvasCoords := getCanvasCoordinates e s0 in
  let s := setCursorPosition (Some canvasCoords) s0 in
  if isPanTrigger e then
    Some (setInteractionMode pan
            (setLastPanPoint (mkPoint (clientX e) (clientY e))
               (setIsPanning true s)))
  else
    started <- startOnSelected s0 s canvasCoords ;;
    match started with
    | Some s' => Some s'
    | None =>
        onLabel <- findLabelAt s0 canvasCoords (lines s0) ;;
        match onLabel with
        | Some line =>
            Some (setHoveredLabel (Some (Line.id line))
                    (handleSelectLine line s))
        | None =>
            let imageCoords := getImageCoordinates s0 canvasCoords in
            match findLineAtPoint s0 imageCoords with
            | Some clickedLine => Some (handleSelectLine clickedLine s)
            | None =>
                Some (handleStartDrawing now (x imageCoords) (y imageCoords)
                        (setInteractionMode draw s))
            end
        end
    end.

(** The angle [handleMouseMove] gives to the label in rotate mode. *)
Definition snappedAngle (center canvasCoords : Point) : R :=
  let dx := x canvasCoords - x center in
  let dy := y canvasCoords - y center in
  let angle := atan2 dy dx * (180 / PI) in
  let newAngle := round (angle / 5) * 5 in
  let newAngle := if Rltb newAngle 0 then newAngle + 360 else newAngle in
  if Rleb 360 newAngle then newAngle - 360 else newAngle.

Definition rotating (s : State) : option Point :=
  if Mode_eqb (interactionMode s) rotate then rotationCenter s else None.

Definition draggingLabel (s : State) : option Line :=
  if Mode_eqb (interactionMode s) drag && isDraggingLabel s
  then selectedLine s else None.

Definition handleMouseMove (e : MouseEvent) (s0 : State) : option State :=
  let canvasCoords := getCanvasCoordinates e s0 in
  let s := setCursorPosition (Some canvasCoords) s0 in
  if isPanning s0 then
    let dx := clientX e - x (lastPanPoint s0) in
    let dy := clientY e - y (lastPanPoint s0) in
    Some (setLastPanPoint (mkPoint (clientX e) (clientY e))
            (setPanOffset (mkPoint (x (panOffset s) + dx)
                                   (y (panOffset s) + dy)) s))
  else
    match rotating s0 with
    | Some center =>
        Some (handleRotateLabel (snappedAngle center canvasCoords) s)
    | None =>
        match draggingLabel s0 with
        | Some sel =>
            let imageCoords := getImageCoordinates s0 canvasCoords in
            Some (handleUpdateLabelPosition (Line.id sel) imageCoords s)
        | None =>
            hovered <- findHoveredAt s0 canvasCoords (lines s0) ;;
            let s1 := setHoveredLabel (option_map Line.id hovered) s in
            if Mode_eqb (interactionMode s0) draw then
              let imageCoords := getImageCoordinates s0 canvasCoords in
              Some (handleDrawing (x imageCoords) (y imageCoords) s1)
            else Some s1
        end
    end.

(** [handleMouseUp], also bound to [onMouseLeave]. *)
Definition handleMouseUp (s0 : State) : option State :=
  let s1 := if isPanning s0 then setIsPanning false s0 else s0 in
  let s2 :=
    if Mode_eqb (interactionMode s0) rotate
    then setRotationCenter None (handleEndRotatingLabel s1) else s1 in
  let s3 := if isDraggingLabel s0 then setIsDraggingLabel false s2 else s2 in
  s4 <- (if Mode_eqb (interactionMode s0) draw
         then handleEndDrawing s3 else Some s3) ;;
  Some (setInteractionMode draw s4).

Definition handleMouseLeave (s0 : State) : option State := handleMouseUp s0.

(** The zoom level [handleWheel] computes for a wheel event. *)
Definition wheelDelta (e : WheelEvent) : R :=
  if Rltb 0 (deltaY e) then - (1 / 10) else 1 / 10.

Definition wheelNewZoom (e : WheelEvent) (s : State) : R :=
  Rmax (1 / 2) (Rmin 3 (zoomLevel s + wheelDelta e)).

(** [handleWheel]: the next state and the zoom level written to the
    console. *)
Definition handleWheel (e : WheelEvent) (s : State) : State * R :=
  let delta := wheelDelta e in
  let newZoom := wheelNewZoom e s in
  let mouseX := wheelClientX e - x (canvasRect s) in
  let mouseY := wheelClientY e - y (canvasRect s) in
  let s1 :=
    if Rltb 0 delta then
      setPanOffset
        (mkPoint
           (x (panOffset s) - (mouseX - width (canvasSize s) / 2) * (5 / 100))
           (y (panOffset s) - (mouseY - height (canvasSize s) / 2) * (5 / 100)))
        s
    else
      setPanOffset
        (mkPoint
           (x (panOffset s) + (mouseX - width (canvasSize s) / 2) * (5 / 100))
           (y (panOffset s) + (mouseY - height (canvasSize s) / 2) * (5 / 100)))
        s in
  (s1, newZoom).

End Handlers.

(** ** The other callbacks of [MapDrawingTool] *)

Definition handleDeleteLine (s : State) : State :=
  match selectedLine s with
  | None => s
  | Some sel =>
      setSelectedLine None
        (setLines
           (filter (fun line =>
                      negb (String.eqb (Line.id line) (Line.id sel)))
                   (lines s)) s)
  end.

(** [lines.slice (0, -1)] is the list without its last element. *)
Definition handleUndo (s : State) : State :=
  if (0 <? List.length (lines s))%nat
  then setLines (removelast (lines s)) s else s.

Definition handleClearAll (s : State) : State :=
  setSelectedLine None (setLines [] s).

Definition handleResetZoom (s : State) : State := setZoomLevel 1 s.

Definition resetPanOffset (s : State) : State := setPanOffset (mkPoint 0 0) s.

Definition handleThicknessChange (value : R) (s : State) : State :=
  setThickness value s.

(** The cells of [MapDrawingTool] that the canvas never sees, beside the
    ones of [State]. *)
Record ToolState := mkToolState {
  core : State;
  backgroundImage : option string;
  editingLabel : bool
}.

Definition handleUpdateSelectedLine (t : ToolState) : ToolState :=
  let s := core t in
  match selectedLine s with
  | None => t
  | Some sel =>
      let updatedLines :=
        map (fun line =>
               if String.eqb (Line.id line) (Line.id sel)
               then Line.mk (Line.id line) (Line.points line) (color s)
                            (opacity s / 100) (label s) (labelRotation s)
                            (Line.labelPosition line) (thickness s)
               else line)
            (lines s) in
      mkToolState (setSelectedLine None (setLines updatedLines s))
                  (backgroundImage t) false
  end.

(** [defaultMapImage] stands for the constant [DEFAULT_MAP_IMAGE]. *)
Definition handleResetToDefaultImage (defaultMapImage : string)
    (t : ToolState) : ToolState :=
  mkToolState
    (setPanOffset (mkPoint 0 0)
       (setZoomLevel 1 (setSelectedLine None (setLines [] (core t)))))
    (Some defaultMapImage) (editingLabel t).

(** ** Sizing the canvas *)

Definition setCanvasSize (v : Size) (s : State) : State :=
  mkState (lines s) (currentLine s) (isDrawing s) (selectedLine s) (color s)
    (opacity s) (label s) (labelRotation s) (zoomLevel s) (isRotatingLabel s)
    (thickness s) (panOffset s) v (imageSize s) (scale s) (isPanning s)
    (lastPanPoint s) (hoveredLabel s) (isDraggingLabel s)
    (rotationStartAngle s) (rotationCenter s) (interactionMode s)
    (cursorPosition s) (canvasRect s).

Definition setImageSize (v : Size) (s : State) : State :=
  mkState (lines s) (currentLine s) (isDrawing s) (selectedLine s) (color s)
    (opacity s) (label s) (labelRotation s) (zoomLevel s) (isRotatingLabel s)
    (thickness s) (panOffset s) (canvasSize s) v (scale s) (isPanning s)
    (lastPanPoint s) (hoveredLabel s) (isDraggingLabel s)
    (rotationStartAngle s) (rotationCenter s) (interactionMode s)
    (cursorPosition s) (canvasRect s).

Definition setScale (v : R) (s : State) : State :=
  mkState (lines s) (currentLine s) (isDrawing s) (selectedLine s) (color s)
    (opacity s) (label s) (labelRotation s) (zoomLevel s) (isRotatingLabel s)
    (thickness s) (panOffset s) (canvasSize s) (imageSize s) v (isPanning s)
    (lastPanPoint s) (hoveredLabel s) (isDraggingLabel s)
    (rotationStartAngle s) (rotationCenter s) (interactionMode s)
    (cursorPosition s) (canvasRect s).

(** What [img.onload] stores once an image of natural size [imgWidth] x
    [imgHeight] has loaded in a container of the given size. *)
Definition onImageLoad (containerWidth containerHeight imgWidth imgHeight : R)
    (s : State) : State :=
  let scaleX := containerWidth / imgWidth in
  let scaleY := containerHeight / imgHeight in
  let baseScale := Rmin scaleX scaleY in
  let scaledWidth := imgWidth * baseScale in
  let scaledHeight := imgHeight * baseScale in
  setScale baseScale
    (setImageSize (mkSize scaledWidth scaledHeight)
       (setCanvasSize (mkSize containerWidth containerHeight) s)).

(** ** Sequences of events and the touch handlers *)

Section Touch.

Variable measureText : string -> R.

(** The pointer-moves of a list, handled in order. *)
Fixpoint handleMouseMoves (es : list MouseEvent) (s : State)
  : option State :=
  match es with
  | [] => Some s
  | e :: rest =>
      s1 <- handleMouseMove measureText e s ;; handleMouseMoves rest s1
  end.

(** [getCanvasCoordinates] on a touch event, given by the client positions
    of its touches: it reads [e.touches[0]]. *)
Definition getTouchCoordinates (touches : list Point) (s : State)
  : option Point :=
  first <- nth_error touches 0 ;;
  Some (mkPoint (x first - x (canvasRect s)) (y first - y (canvasRect s))).

Definition handleTouchStart (now : string) (touches : list Point)
    (s0 : State) : option State :=
  canvasCoords <- getTouchCoordinates touches s0 ;;
  if (List.length touches =? 2)%nat then Some (setIsPanning true s0)
  else
    started <- startOnSelected measureText s0 s0 canvasCoords ;;
    match started with
    | Some s' => Some s'
    | None =>
        onLabel <- findLabelAt measureText s0 canvasCoords (lines s0) ;;
        match onLabel with
        | Some line =>
            Some (setHoveredLabel (Some (Line.id line))
                    (handleSelectLine line s0))
        | None =>
            let imageCoords := getImageCoordinates s0 canvasCoords in
            match findLineAtPoint s0 imageCoords with
            | Some touchedLine => Some (handleSelectLine touchedLine s0)
            | None =>
                Some (handleStartDrawing now (x imageCoords) (y imageCoords)
                        (setInteractionMode draw s0))
            end
        end
    end.

Definition handleTouchMove (touches : list Point) (s0 : State)
  : option State :=
  canvasCoords <- getTouchCoordinates touches s0 ;;
  let s := setCursorPosition (Some canvasCoords) s0 in
  if isPanning s0 && (List.length touches =? 2)%nat then Some s
  else
    match rotating s0 with
    | Some center =>
        Some (handleRotateLabel (snappedAngle center canvasCoords) s)
    | None =>
        match draggingLabel s0 with
        | Some sel =>
            let imageCoords := getImageCoordinates s0 canvasCoords in
            Some (handleUpdateLabelPosition (Line.id sel) imageCoords s)
        | None =>
            if Mode_eqb (interactionMode s0) draw then
              let imageCoords := getImageCoordinates s0 canvasCoords in
              Some (handleDrawing (x imageCoords) (y imageCoords) s)
            else Some s
        end
    end.

Definition handleTouchEnd (s0 : State) : option State :=
  let s1 := if isPanning s0 then setIsPanning false s0 else s0 in
  let s2 :=
    if Mode_eqb (interactionMode s0) rotate
    then setRotationCenter None (handleEndRotatingLabel s1) else s1 in
  let s3 := if isDraggingLabel s0 then setIsDraggingLabel false s2 else s2 in
  s4 <- (if Mode_eqb (interactionMode s0) draw
         then handleEndDrawing s3 else Some s3) ;;
  Some (setInteractionMode draw s4).

(** The touch-moves of a list, handled in order. *)
Fixpoint handleTouchMoves (es : list (list Point)) (s : State)
  : option State :=
  match es with
  | [] => Some s
  | e :: rest => s1 <- handleTouchMove e s ;; handleTouchMoves rest s1
  end.

End Touch.

(** ** The events of a session

    The pointer and wheel events of the canvas, bound in its JSX to the
    handlers above, and the buttons of the tool that act on [State]. *)

Inductive UserEvent : Type :=
| MouseDown (now : string) (e : MouseEvent)
| MouseMove (e : MouseEvent)
| MouseUp
| MouseLeave
| Wheel (e : WheelEvent)
| Undo
| ClearAll
| DeleteLine
| ZoomIn
| ZoomOut
| ResetZoom
| ResetPan.

Definition handleEvent (measureText : string -> R) (ev : UserEvent)
    (s : State) : option State :=
  match ev with
  | MouseDown now e => handleMouseDown measureText now e s
  | MouseMove e => handleMouseMove measureText e s
  | MouseUp => handleMouseUp s
  | MouseLeave => handleMouseLeave s
  | Wheel e => Some (fst (handleWheel e s))
  | Undo => Some (handleUndo s)
  | ClearAll => Some (handleClearAll s)
  | DeleteLine => Some (handleDeleteLine s)
  | ZoomIn => Some (handleZoomIn s)
  | ZoomOut => Some (handleZoomOut s)
  | ResetZoom => Some (handleResetZoom s)
  | ResetPan => Some (resetPanOffset s)
  end.

Fixpoint handleEvents (measureText : string -> R) (evs : list UserEvent)
    (s : State) : option State :=
  match evs with
  | [] => Some s
  | ev :: rest =>
      s1 <- handleEvent measureText ev s ;; handleEvents measureText rest s1
  end.

(** ** Drawing a label

    The anchor [drawLine] translates the canvas to before it draws the
    label of a line, from the offset and scale it is passed; [None] when it
    draws no label: a line of fewer than 2 points is not drawn at all, and
    a line without label text has no label. *)
Definition drawnLabelAnchor (offsetX offsetY scl : R) (line : Line)
  : option Point :=
  if (List.length (Line.points line) <? 2)%nat then None
  else if negb (Line.hasLabel line) then None
  else
    match Line.labelPosition line with
    | Some lp => Some (mkPoint (offsetX + x lp * scl) (offsetY + y lp * scl))
    | None =>
        midPoint <- nth_error (Line.points line)
                              (midIndexOf (Line.points line)) ;;
        Some (mkPoint (offsetX + x midPoint * scl)
                      (offsetY + y midPoint * scl - 15))
    end.

(** The update [handleRotateLabel] and [handleUpdateLabelPosition] apply to
    the committed lines. *)
Definition rotateLines (lineId : string) (angle : R) (ls : list Line)
  : list Line :=
  map (fun line =>
         if String.eqb (Line.id line) lineId
         then Line.setLabelRotation angle line else line) ls.

Definition moveLabels (lineId : string) (position : Point) (ls : list Line)
  : list Line :=
  map (fun line =>
         if String.eqb (Line.id line) lineId
         then Line.setLabelPosition (Some position) line else line) ls.

(** Two states with the same viewport: sizes, base scale, zoom level, pan
    offset and position of the canvas on the page. *)
Definition sameViewport (s s' : State) : Prop :=
  canvasSize s' = canvasSize s /\ imageSize s' = imageSize s
  /\ scale s' = scale s /\ zoomLevel s' = zoomLevel s
  /\ panOffset s' = panOffset s /\ canvasRect s' = canvasRect s.

(** The client position of a mouse event. *)
Definition clientPoint (e : MouseEvent) : Point :=
  mkPoint (clientX e) (clientY e).

(** A state at rest: draw mode, nothing in progress. *)
Definition atRest (s : State) : Prop :=
  interactionMode s = draw /\ isDrawing s = false /\ isPanning s = false
  /\ isDraggingLabel s = false.

(** Every line the handlers can read has at least one point. *)
Definition hasPoints (line : Line) : Prop := Line.points line <> [].

Definition wellFormed (s : State) : Prop :=
  (forall line, In line (lines s) -> hasPoints line)
  /\ (forall line, selectedLine s = Some line -> hasPoints line)
  /\ (forall line, currentLine s = Some line -> hasPoints line).

(** ** Example states *)

(** The initial values of the [useState] cells, with the canvas at the
    origin of the page. *)
Definition initialState : State :=
  mkState [] None false None "#FF0000" 100 EmptyString 0 1 false 3
          (mkPoint 0 0) (mkSize 0 0) (mkSize 0 0) 1 false (mkPoint 0 0)
          None false 0 None draw None (mkPoint 0 0).

(** After a 400 x 300 image has loaded in a 800 x 600 container: the base
    scale is 2 and the image fills the canvas. *)
Definition loadedState : State :=
  mkState [] None false None "#FF0000" 100 EmptyString 0 1 false 3
          (mkPoint 0 0) (mkSize 800 600) (mkSize 800 600) 2 false
          (mkPoint 0 0) None false 0 None draw None (mkPoint 0 0).

Definition leftClickAt (cx cy : R) : MouseEvent := mkMouseEvent 0 false cx cy.

Definition middleClickAt (cx cy : R) : MouseEvent :=
  mkMouseEvent 1 false cx cy.

Definition pointerAt (cx cy : R) : MouseEvent := mkMouseEvent 0 false cx cy.

(** A committed line with a label placed at (50, 50). *)
Definition labelledLine : Line :=
  Line.mk "1" [mkPoint 10 20; mkPoint 30 40] "#FF0000" 1 "A" 0
          (Some (mkPoint 50 50)) 3.

(** The loaded canvas while the label of [labelledLine] is dragged. *)
Definition draggingState : State :=
  setInteractionMode drag
    (setIsDraggingLabel true
       (setSelectedLine (Some labelledLine)
          (setLines [labelledLine] loadedState))).

(** A thin line on a canvas at base scale 1 and zoom level 1. *)
Definition thinLine : Line :=
  Line.mk "1" [mkPoint 0 0; mkPoint 100 0] "#FF0000" 1 EmptyString 0 None 1.

Definition unitScaleState : State :=
  mkState [thinLine] None false None "#FF0000" 100 EmptyString 0 1 false 1
          (mkPoint 0 0) (mkSize 800 600) (mkSize 800 600) 1 false
          (mkPoint 0 0) None false 0 None draw None (mkPoint 0 0).

(** A two-point line in progress on the loaded canvas. *)
Definition twoPointLine : Line :=
  Line.mk "1" [mkPoint 10 20; mkPoint 30 40] "#FF0000" 1 EmptyString 0 None 3.

Definition drawingState : State :=
  setIsDrawing true (setCurrentLine (Some twoPointLine) loadedState).

(** The loaded canvas with one committed line, and with that line
    selected. *)
Definition oneLineState : State := setLines [twoPointLine] loadedState.

Definition selectedState : State :=
  setSelectedLine (Some twoPointLine) oneLineState.

(** The canvas while the label of [labelledLine] is rotated about
    (100, 100). *)
Definition rotatingState : State :=
  setRotationCenter (Some (mkPoint 100 100))
    (setInteractionMode rotate
       (setSelectedLine (Some labelledLine)
          (setLines [labelledLine] loadedState))).

(** The loaded canvas with [labelledLine] selected and its label hovered. *)
Definition hoveringState : State :=
  setHoveredLabel (Some "1"%string)
    (setSelectedLine (Some labelledLine)
       (setLines [labelledLine] loadedState)).

(** The loaded canvas with [labelledLine] committed and nothing selected. *)
Definition oneLabelState : State := setLines [labelledLine] loadedState.

(** Every label is measured 40 wide. *)
Definition fixedWidth : string -> R := fun _ => 40.

(** * Properties *)

(** ** Comparisons *)

Lemma Rleb_true (a b : R) : a <= b -> Rleb a b = true.
Proof. intros H. unfold Rleb. destruct (Rle_dec a b); [reflexivity | lra]. Qed.

Lemma Rleb_false (a b : R) : b < a -> Rleb a b = false.
Proof. intros H. unfold Rleb. destruct (Rle_dec a b); [lra | reflexivity]. Qed.

Lemma Rltb_true (a b : R) : a < b -> Rltb a b = true.
Proof. intros H. unfold Rltb. destruct (Rlt_dec a b); [reflexivity | lra]. Qed.

Lemma Rltb_false (a b : R) : b <= a -> Rltb a b = false.
Proof. intros H. unfold Rltb. destruct (Rlt_dec a b); [lra | reflexivity]. Qed.

Lemma Reqb_true (a b : R) : a = b -> Reqb a b = true.
Proof.
  intros H. unfold Reqb. destruct (Req_dec_T a b); [reflexivity | contradiction].
Qed.

Lemma Reqb_false (a b : R) : a <> b -> Reqb a b = false.
Proof.
  intros H. unfold Reqb. destruct (Req_dec_T a b); [contradiction | reflexivity].
Qed.

Lemma Rleb_le (a b : R) : Rleb a b = true -> a <= b.
Proof. unfold Rleb. destruct (Rle_dec a b); [trivial | discriminate]. Qed.

Lemma Rltb_lt (a b : R) : Rltb a b = true -> a < b.
Proof. unfold Rltb. destruct (Rlt_dec a b); [trivial | discriminate]. Qed.

Lemma Rltb_ge (a b : R) : Rltb a b = false -> b <= a.
Proof. unfold Rltb. destruct (Rlt_dec a b); [discriminate | lra]. Qed.

Lemma orDefault_nonzero (a d : R) : a <> 0 -> orDefault a d = a.
Proof. intros H. unfold orDefault. now rewrite Reqb_false. Qed.

(** Settles the comparisons of a goal over concrete numbers. *)
Ltac Rdecide :=
  repeat first
    [ rewrite Rleb_true by (simpl; lra)
    | rewrite Rleb_false by (simpl; lra)
    | rewrite Rltb_true by (simpl; lra)
    | rewrite Rltb_false by (simpl; lra)
    | rewrite Reqb_true by (simpl; lra)
    | rewrite Reqb_false by (simpl; lra) ];
  simpl.

(** ** Point-to-segment distance *)

Lemma point_eta (p : Point) : mkPoint (x p) (y p) = p.
Proof. destruct p; reflexivity. Qed.

Lemma checked_distance_agrees (p a b : Point) :
  distanceToLineSegmentChecked p a b = Some (distanceToLineSegment p a b).
Proof.
  unfold distanceToLineSegmentChecked, distanceToLineSegment, checkedDiv.
  destruct (Reqb _ 0); reflexivity.
Qed.

Lemma degenerate_segment_distance (p a : Point) :
  distanceToLineSegment p a a = distance p a.
Proof.
  unfold distanceToLineSegment, distance.
  rewrite (Reqb_true _ 0) by ring. simpl.
  rewrite (Rltb_true (-1) 0) by lra. reflexivity.
Qed.

(** C9. [distanceToLineSegment] is total: with every division checked it
    still returns a value, for every point and every segment; and on a
    segment with equal endpoints [a] that value is the Euclidean distance
    from the point to [a]. *)
Theorem distanceToLineSegment_total (p a b : Point) :
  distanceToLineSegmentChecked p a b = Some (distanceToLineSegment p a b)
  /\ distanceToLineSegmentChecked p a a = Some (distance p a)
  /\ 0 <= distanceToLineSegment p a b.
Proof.
  split; [apply checked_distance_agrees |].
  split.
  - rewrite checked_distance_agrees, degenerate_segment_distance. reflexivity.
  - unfold distanceToLineSegment. apply sqrt_pos.
Qed.

(** ** The viewport transform *)

Lemma getImageCoordinates_inside (s : State) (c : Point) :
  withinImageBounds s c = true ->
  getImageCoordinates s c =
    mkPoint ((x c - imageX s) / effectiveScale s)
            ((y c - imageY s) / effectiveScale s).
Proof. intros H. unfold getImageCoordinates. now rewrite H. Qed.

Lemma getImageCoordinates_outside (s : State) (c : Point) :
  withinImageBounds s c = false -> getImageCoordinates s c = mkPoint 0 0.
Proof. intros H. unfold getImageCoordinates. now rewrite H. Qed.

(** [drawCanvas] places the image at the origin the hit tests use, once the
    displayed size is the natural size times the base scale. *)
Lemma drawCanvasOrigin_imageOrigin (imgWidth imgHeight : R) (s : State) :
  imageSize s = mkSize (imgWidth * scale s) (imgHeight * scale s) ->
  drawCanvasOrigin imgWidth imgHeight s = mkPoint (imageX s) (imageY s).
Proof.
  intros H. unfold drawCanvasOrigin, imageX, imageY, effectiveScale.
  rewrite H. simpl. f_equal; field.
Qed.

(** C3. An image point whose screen position lies within the bounds of the
    displayed image is recovered by [getImageCoordinates] from that screen
    position, whenever the effective scale is not zero. *)
Theorem screen_to_image_of_image_to_screen (s : State) (p : Point) :
  effectiveScale s <> 0 ->
  withinImageBounds s (imageToScreen s p) = true ->
  getImageCoordinates s (imageToScreen s p) = p.
Proof.
  intros Hs Hin. rewrite getImageCoordinates_inside by exact Hin.
  unfold imageToScreen, drawLinePoint. simpl.
  rewrite <- (point_eta p) at 3. f_equal; field; exact Hs.
Qed.

Lemma screen_to_image_of_image_to_screen_witness :
  getImageCoordinates loadedState (imageToScreen loadedState (mkPoint 100 100))
  = mkPoint 100 100.
Proof.
  apply screen_to_image_of_image_to_screen.
  - unfold effectiveScale. simpl. lra.
  - unfold withinImageBounds, imageToScreen, drawLinePoint, imageX, imageY,
      effectiveScale. simpl. Rdecide. reflexivity.
Defined.

(** ** Ending a gesture *)

Lemma midIndex_in_range {A : Type} (l : list A) :
  (1 <= List.length l)%nat -> exists a, nth_error l (midIndexOf l) = Some a.
Proof.
  intros H. unfold midIndexOf.
  destruct (nth_error l (List.length l / 2)) as [a |] eqn:E.
  - now exists a.
  - apply nth_error_None in E.
    assert (List.length l / 2 < List.length l)%nat
      by (apply Nat.div_lt; lia).
    lia.
Qed.

Lemma handleEndDrawing_short (s : State) (cl : Line) :
  isDrawing s = true -> currentLine s = Some cl ->
  (List.length (Line.points cl) < 2)%nat ->
  handleEndDrawing s =
    Some (setIsDrawing false (setCurrentLine None
            (setLines (lines s ++ [cl]) s))).
Proof.
  intros Hd Hc Hlen. unfold handleEndDrawing. rewrite Hd, Hc.
  destruct (Nat.leb_spec 2 (List.length (Line.points cl))); [lia |].
  reflexivity.
Qed.

Lemma handleEndDrawing_long (s : State) (cl : Line) :
  isDrawing s = true -> currentLine s = Some cl ->
  (2 <= List.length (Line.points cl))%nat ->
  exists midPoint,
    nth_error (Line.points cl) (midIndexOf (Line.points cl)) = Some midPoint
    /\ handleEndDrawing s =
         Some (setIsDrawing false (setCurrentLine None
                 (setLines
                    (lines s ++
                       [Line.setLabelPosition
                          (Some (mkPoint (x midPoint) (y midPoint - 15))) cl])
                    s))).
Proof.
  intros Hd Hc Hlen. unfold handleEndDrawing. rewrite Hd, Hc.
  destruct (Nat.leb_spec 2 (List.length (Line.points cl))); [| lia].
  destruct (midIndex_in_range (Line.points cl)) as [m Hm]; [lia |].
  exists m. split; [exact Hm |]. rewrite Hm. reflexivity.
Qed.

Lemma handleEndDrawing_returns (s : State) :
  exists s', handleEndDrawing s = Some s'
             /\ isPanning s' = isPanning s
             /\ isDraggingLabel s' = isDraggingLabel s
             /\ rotationCenter s' = rotationCenter s
             /\ interactionMode s' = interactionMode s.
Proof.
  destruct (isDrawing s) eqn:Hd.
  - destruct (currentLine s) as [cl |] eqn:Hc.
    + destruct (Nat.le_gt_cases 2 (List.length (Line.points cl))) as [H | H].
      * destruct (handleEndDrawing_long s cl Hd Hc H) as (m & _ & E).
        rewrite E. eexists. split; [reflexivity |]. simpl. tauto.
      * rewrite (handleEndDrawing_short s cl Hd Hc H).
        eexists. split; [reflexivity |]. simpl. tauto.
    + unfold handleEndDrawing. rewrite Hd, Hc. exists s. tauto.
  - unfold handleEndDrawing. rewrite Hd. exists s. tauto.
Qed.

(** C1, as stated, fails: the line of a single click has one point and is
    committed all the same. *)
Lemma single_click_commits_a_line :
  exists s cl,
    handleMouseDown fixedWidth "1" (leftClickAt 200 200) loadedState = Some s
    /\ interactionMode s = draw
    /\ currentLine s = Some cl
    /\ List.length (Line.points cl) = 1%nat
    /\ exists s', handleMouseUp s = Some s'
                  /\ lines s = [] /\ lines s' = [cl].
Proof.
  eexists. eexists. split; [reflexivity |].
  split; [reflexivity |]. split; [reflexivity |]. split; [reflexivity |].
  eexists. split; [reflexivity |]. split; reflexivity.
Qed.

(** C1, amended.  When a gesture ends in draw mode with a line in progress,
    exactly one entry is appended to the committed lines and the line in
    progress is cleared: the line itself, without label position, when it has
    fewer than 2 points; the line with label position the point at index
    floor(length / 2) moved by -15 in Y when it has 2 points or more.
    Leaving the canvas does the same. *)
Theorem end_of_draw_gesture_commits (s : State) (cl : Line) :
  interactionMode s = draw ->
  isDrawing s = true ->
  currentLine s = Some cl ->
  exists s',
    handleMouseUp s = Some s'
    /\ handleMouseLeave s = Some s'
    /\ currentLine s' = None
    /\ ((List.length (Line.points cl) < 2)%nat -> lines s' = lines s ++ [cl])
    /\ ((2 <= List.length (Line.points cl))%nat ->
        exists midPoint,
          nth_error (Line.points cl) (Nat.div (List.length (Line.points cl)) 2)
            = Some midPoint
          /\ lines s' =
               lines s ++
                 [Line.setLabelPosition
                    (Some (mkPoint (x midPoint) (y midPoint - 15))) cl]).
Proof.
  intros Hm Hd Hc.
  set (s3 := if isDraggingLabel s then
               setIsDraggingLabel false
                 (if isPanning s then setIsPanning false s else s)
             else if isPanning s then setIsPanning false s else s).
  assert (E : handleMouseUp s =
              (s4 <- handleEndDrawing s3 ;; Some (setInteractionMode draw s4))).
  { unfold handleMouseUp. rewrite Hm. reflexivity. }
  assert (Hd3 : isDrawing s3 = true)
    by (subst s3; destruct (isDraggingLabel s), (isPanning s); exact Hd).
  assert (Hc3 : currentLine s3 = Some cl)
    by (subst s3; destruct (isDraggingLabel s), (isPanning s); exact Hc).
  assert (Hl3 : lines s3 = lines s)
    by (subst s3; destruct (isDraggingLabel s), (isPanning s); reflexivity).
  unfold handleMouseLeave. rewrite E.
  destruct (Nat.le_gt_cases 2 (List.length (Line.points cl))) as [H | H].
  - destruct (handleEndDrawing_long s3 cl Hd3 Hc3 H) as (m & Hmid & E3).
    rewrite E3. eexists. split; [reflexivity |]. split; [reflexivity |].
    split; [reflexivity |]. split; [intros; lia |].
    intros _. exists m. split; [exact Hmid |]. simpl. now rewrite Hl3.
  - rewrite (handleEndDrawing_short s3 cl Hd3 Hc3 H).
    eexists. split; [reflexivity |]. split; [reflexivity |].
    split; [reflexivity |]. split; [| intros; lia].
    intros _. simpl. now rewrite Hl3.
Qed.

Lemma end_of_draw_gesture_commits_witness :
  exists s',
    handleMouseUp drawingState = Some s'
    /\ handleMouseLeave drawingState = Some s'
    /\ currentLine s' = None
    /\ ((List.length (Line.points twoPointLine) < 2)%nat ->
        lines s' = lines drawingState ++ [twoPointLine])
    /\ ((2 <= List.length (Line.points twoPointLine))%nat ->
        exists midPoint,
          nth_error (Line.points twoPointLine)
                    (Nat.div (List.length (Line.points twoPointLine)) 2)
            = Some midPoint
          /\ lines s' =
               lines drawingState ++
                 [Line.setLabelPosition
                    (Some (mkPoint (x midPoint) (y midPoint - 15)))
                    twoPointLine]).
Proof.
  apply (end_of_draw_gesture_commits drawingState twoPointLine);
    reflexivity.
Defined.

Lemma handleMouseDown_rotation_control (measureText : string -> R)
    (now : string) (e : MouseEvent) (s : State) (sel : Line)
    (center : Point) :
  isPanTrigger e = false ->
  hoveredSelected s = Some sel ->
  isPointNearRotationControl measureText s (getCanvasCoordinates e s) sel
    = Some true ->
  labelScreenPosition s sel = Some center ->
  exists s',
    handleMouseDown measureText now e s = Some s'
    /\ interactionMode s' = rotate
    /\ rotationCenter s' = Some center.
Proof.
  intros Hp Hsel Hnear Hc. unfold handleMouseDown, startOnSelected.
  rewrite Hp, Hsel, Hnear. simpl. rewrite Hc. simpl.
  eexists. split; [reflexivity |]. split; reflexivity.
Qed.

Lemma pan_press_then_release_keeps_center (measureText : string -> R)
    (now : string) (e : MouseEvent) (s : State) (center : Point) :
  isPanTrigger e = true ->
  rotationCenter s = Some center ->
  exists s1 s2,
    handleMouseDown measureText now e s = Some s1
    /\ interactionMode s1 = pan
    /\ handleMouseUp s1 = Some s2
    /\ rotationCenter s2 = Some center.
Proof.
  intros Hp Hc. unfold handleMouseDown. rewrite Hp.
  match goal with
  | |- exists s1 s2, Some ?t = Some s1 /\ _ => exists t
  end.
  destruct (isDraggingLabel s) eqn:Hd.
  - eexists. split; [reflexivity |]. split; [reflexivity |].
    unfold handleMouseUp. simpl. rewrite Hd. simpl.
    split; [reflexivity | exact Hc].
  - eexists. split; [reflexivity |]. split; [reflexivity |].
    unfold handleMouseUp. simpl. rewrite Hd. simpl.
    split; [reflexivity | exact Hc].
Qed.

Lemma rotation_control_pressed :
  isPointNearRotationControl fixedWidth hoveringState
    (getCanvasCoordinates (leftClickAt 132 100) hoveringState) labelledLine
  = Some true
  /\ labelScreenPosition hoveringState labelledLine
     = Some (mkPoint 100 100).
Proof.
  unfold isPointNearRotationControl, labelScreenPosition, imageX, imageY,
    effectiveScale, fixedWidth. simpl. split.
  - f_equal. apply Rleb_true.
    match goal with
    | |- sqrt ?a <= _ => replace a with 0 by field
    end.
    rewrite sqrt_0. lra.
  - f_equal. f_equal; field.
Qed.

(** C8, as stated, fails: the middle button pressed during a rotation puts
    the canvas in pan mode, and the pointer-up that follows leaves the
    rotation center in place. *)
Lemma pointer_up_in_pan_mode_keeps_rotation_center :
  exists s0 s1 s2,
    handleMouseDown fixedWidth "2" (leftClickAt 132 100) hoveringState
      = Some s0
    /\ interactionMode s0 = rotate
    /\ handleMouseDown fixedWidth "2" (middleClickAt 300 300) s0 = Some s1
    /\ interactionMode s1 = pan
    /\ handleMouseUp s1 = Some s2
    /\ rotationCenter s2 = Some (mkPoint 100 100)
    /\ rotationCenter s2 <> None.
Proof.
  destruct rotation_control_pressed as [Hnear Hcenter].
  destruct (handleMouseDown_rotation_control fixedWidth "2"
              (leftClickAt 132 100) hoveringState labelledLine
              (mkPoint 100 100) eq_refl eq_refl Hnear Hcenter)
    as (s0 & E0 & M0 & C0).
  destruct (pan_press_then_release_keeps_center fixedWidth "2"
              (middleClickAt 300 300) s0 (mkPoint 100 100) eq_refl C0)
    as (s1 & s2 & E1 & M1 & E2 & C2).
  exists s0, s1, s2. repeat split; try assumption.
  rewrite C2. discriminate.
Qed.

(** C8, amended.  From every state, pointer-up returns, and leaves the
    canvas in draw mode with the panning and label-dragging flags cleared;
    the rotation center is cleared when the mode was rotate and is left as it
    was otherwise.  Pointer-leave runs the same handler. *)
Theorem pointer_up_resets_mode (s : State) :
  exists s',
    handleMouseUp s = Some s'
    /\ handleMouseLeave s = handleMouseUp s
    /\ interactionMode s' = draw
    /\ isPanning s' = false
    /\ isDraggingLabel s' = false
    /\ (interactionMode s = rotate -> rotationCenter s' = None)
    /\ (interactionMode s <> rotate -> rotationCenter s' = rotationCenter s).
Proof.
  unfold handleMouseLeave, handleMouseUp.
  set (s1 := if isPanning s then setIsPanning false s else s).
  assert (P1 : isPanning s1 = false)
    by (subst s1; destruct (isPanning s) eqn:E; [reflexivity | exact E]).
  assert (D1 : isDraggingLabel s1 = isDraggingLabel s)
    by (subst s1; destruct (isPanning s); reflexivity).
  assert (R1 : rotationCenter s1 = rotationCenter s)
    by (subst s1; destruct (isPanning s); reflexivity).
  destruct (interactionMode s) eqn:Hm; simpl.
  - (* draw *)
    set (s3 := if isDraggingLabel s then setIsDraggingLabel false s1 else s1).
    assert (P3 : isPanning s3 = false)
      by (subst s3; destruct (isDraggingLabel s); exact P1).
    assert (D3 : isDraggingLabel s3 = false).
    { subst s3. destruct (isDraggingLabel s) eqn:E; [reflexivity |].
      now rewrite D1. }
    assert (R3 : rotationCenter s3 = rotationCenter s)
      by (subst s3; destruct (isDraggingLabel s); exact R1).
    destruct (handleEndDrawing_returns s3) as (s4 & E4 & P4 & D4 & R4 & _).
    rewrite E4. simpl. eexists. split; [reflexivity |]. simpl.
    repeat split; try congruence.
  - (* pan *)
    eexists. split; [reflexivity |].
    destruct (isDraggingLabel s) eqn:E; simpl;
      repeat split; try congruence.
  - (* rotate *)
    eexists. split; [reflexivity |].
    destruct (isDraggingLabel s) eqn:E; simpl;
      repeat split; try congruence.
  - (* drag *)
    eexists. split; [reflexivity |].
    destruct (isDraggingLabel s) eqn:E; simpl;
      repeat split; try congruence.
Qed.

(** ** Pointer-down on empty space *)

Section PointerDown.

Variable measureText : string -> R.

Lemma findLabelAt_none (s : State) (c : Point) (ls : list Line) :
  (forall l, In l ls -> isPointNearLabel measureText s c l = Some false) ->
  findLabelAt measureText s c ls = Some None.
Proof.
  induction ls as [| l ls IH]; intros H; simpl; [reflexivity |].
  rewrite (H l) by (left; reflexivity).
  destruct (Line.hasLabel l); simpl; apply IH; intros l' Hl';
    apply H; right; exact Hl'.
Qed.

Lemma findLineIn_none (s : State) (pt : Point) (ls : list Line) :
  (forall l, In l ls -> lineHit s pt l = false) ->
  findLineIn s pt ls = None.
Proof.
  induction ls as [| l ls IH]; intros H; simpl; [reflexivity |].
  rewrite (H l) by (left; reflexivity).
  apply IH. intros l' Hl'. apply H. right. exact Hl'.
Qed.

Lemma startOnSelected_none (s0 s : State) (c : Point) :
  (forall sel, hoveredSelected s0 = Some sel ->
     isPointNearRotationControl measureText s0 c sel = Some false
     /\ isPointNearLabel measureText s0 c sel = Some false) ->
  startOnSelected measureText s0 s c = Some None.
Proof.
  intros H. unfold startOnSelected.
  destruct (hoveredSelected s0) as [sel |]; [| reflexivity].
  destruct (H sel eq_refl) as [Hr Hl]. rewrite Hr. simpl.
  rewrite Hl. reflexivity.
Qed.

(** What [handleMouseDown] does when nothing lies under the pointer. *)
Lemma handleMouseDown_empty_space (now : string) (e : MouseEvent)
    (s : State) :
  isPanTrigger e = false ->
  (forall sel, hoveredSelected s = Some sel ->
     isPointNearRotationControl measureText s (getCanvasCoordinates e s) sel
       = Some false
     /\ isPointNearLabel measureText s (getCanvasCoordinates e s) sel
        = Some false) ->
  (forall l, In l (lines s) ->
     isPointNearLabel measureText s (getCanvasCoordinates e s) l
       = Some false) ->
  (forall l, In l (lines s) ->
     lineHit s (getImageCoordinates s (getCanvasCoordinates e s)) l
       = false) ->
  handleMouseDown measureText now e s =
    Some (handleStartDrawing now
            (x (getImageCoordinates s (getCanvasCoordinates e s)))
            (y (getImageCoordinates s (getCanvasCoordinates e s)))
            (setInteractionMode draw
               (setCursorPosition (Some (getCanvasCoordinates e s)) s))).
Proof.
  intros Hp Hsel Hlab Hhit. unfold handleMouseDown. rewrite Hp.
  rewrite startOnSelected_none by exact Hsel. simpl.
  rewrite findLabelAt_none by exact Hlab. simpl.
  unfold findLineAtPoint. rewrite findLineIn_none by exact Hhit.
  reflexivity.
Qed.

End PointerDown.

(** The committed two-point line is far from the image point (100, 100). *)
Lemma twoPointLine_not_hit (s : State) :
  scale s = 2 -> zoomLevel s = 1 ->
  lineHit s (mkPoint 100 100) twoPointLine = false.
Proof.
  intros Hs Hz. unfold lineHit, hitThreshold. rewrite Hs, Hz. simpl.
  unfold distanceToLineSegment, orDefault. simpl.
  rewrite (Reqb_false 3 0) by lra.
  rewrite (Reqb_false _ 0) by lra. simpl.
  rewrite (Rltb_false _ 0) by lra.
  rewrite (Rltb_true 1 _) by lra.
  rewrite Rltb_false; [reflexivity |].
  replace (3 * 2 / (2 * 1)) with (sqrt (3 * 3))
    by (rewrite sqrt_square by lra; field).
  apply sqrt_le_1_alt. lra.
Qed.

Lemma loaded_click_image_point (s : State) :
  canvasSize s = mkSize 800 600 -> imageSize s = mkSize 800 600 ->
  scale s = 2 -> zoomLevel s = 1 -> panOffset s = mkPoint 0 0 ->
  canvasRect s = mkPoint 0 0 ->
  getImageCoordinates s (getCanvasCoordinates (leftClickAt 200 200) s)
  = mkPoint 100 100.
Proof.
  intros Hc Hi Hs Hz Hp Hr.
  unfold getImageCoordinates, withinImageBounds, getCanvasCoordinates,
    imageX, imageY, effectiveScale.
  rewrite Hc, Hi, Hs, Hz, Hp, Hr. simpl. Rdecide. f_equal; field.
Qed.

(** C7, as stated, fails: with a line selected, a pointer-down on empty
    space only clears the selection; no line is begun. *)
Lemma pointer_down_with_selection_begins_no_line :
  exists s',
    handleMouseDown fixedWidth "2" (leftClickAt 200 200) selectedState
      = Some s'
    /\ interactionMode s' = draw
    /\ currentLine s' = None
    /\ isDrawing s' = false
    /\ selectedLine s' = None.
Proof.
  eexists. split.
  - apply handleMouseDown_empty_space.
    + reflexivity.
    + intros sel H. discriminate H.
    + intros l [<- | []]. reflexivity.
    + intros l [<- | []]. rewrite loaded_click_image_point by reflexivity.
      apply twoPointLine_not_hit; reflexivity.
  - repeat split; reflexivity.
Qed.

(** C7, amended.  A pointer-down that is no panning trigger and hits no
    rotation control, no label and no stroke puts the canvas in draw mode.
    With no line selected it begins a line in progress whose points are
    exactly the image-space point of the pointer; with a line selected it
    clears the selection and begins no line. *)
Theorem pointer_down_on_empty_space (measureText : string -> R)
    (now : string) (e : MouseEvent) (s : State) :
  isPanTrigger e = false ->
  (forall sel, hoveredSelected s = Some sel ->
     isPointNearRotationControl measureText s (getCanvasCoordinates e s) sel
       = Some false
     /\ isPointNearLabel measureText s (getCanvasCoordinates e s) sel
        = Some false) ->
  (forall l, In l (lines s) ->
     isPointNearLabel measureText s (getCanvasCoordinates e s) l
       = Some false) ->
  (forall l, In l (lines s) ->
     lineHit s (getImageCoordinates s (getCanvasCoordinates e s)) l = false) ->
  exists s',
    handleMouseDown measureText now e s = Some s'
    /\ interactionMode s' = draw
    /\ (selectedLine s = None ->
        isDrawing s' = true
        /\ exists cl,
             currentLine s' = Some cl
             /\ Line.id cl = now
             /\ Line.points cl =
                  [getImageCoordinates s (getCanvasCoordinates e s)])
    /\ (selectedLine s <> None ->
        selectedLine s' = None
        /\ currentLine s' = currentLine s
        /\ isDrawing s' = isDrawing s).
Proof.
  intros Hp Hsel Hlab Hhit.
  rewrite (handleMouseDown_empty_space measureText now e s Hp Hsel Hlab Hhit).
  eexists. split; [reflexivity |].
  unfold handleStartDrawing. simpl.
  destruct (selectedLine s) as [sel |] eqn:Hs; simpl.
  - split; [reflexivity |]. split; [intros H; discriminate H |].
    intros _. repeat split.
  - split; [reflexivity |]. split; [| intros H; contradiction].
    intros _. split; [reflexivity |].
    eexists. split; [reflexivity |]. split; [reflexivity |].
    simpl. now rewrite point_eta.
Qed.

Lemma pointer_down_on_empty_space_witness :
  exists s',
    handleMouseDown fixedWidth "2" (leftClickAt 200 200) oneLineState = Some s'
    /\ interactionMode s' = draw
    /\ (selectedLine oneLineState = None ->
        isDrawing s' = true
        /\ exists cl,
             currentLine s' = Some cl
             /\ Line.id cl = "2"%string
             /\ Line.points cl =
                  [getImageCoordinates oneLineState
                     (getCanvasCoordinates (leftClickAt 200 200) oneLineState)])
    /\ (selectedLine oneLineState <> None ->
        selectedLine s' = None
        /\ currentLine s' = currentLine oneLineState
        /\ isDrawing s' = isDrawing oneLineState).
Proof.
  apply (pointer_down_on_empty_space fixedWidth "2" (leftClickAt 200 200)
           oneLineState).
  - reflexivity.
  - intros sel H. discriminate H.
  - intros l [<- | []]. reflexivity.
  - intros l [<- | []]. rewrite loaded_click_image_point by reflexivity.
    apply twoPointLine_not_hit; reflexivity.
Defined.

(** ** Rotating a label *)

Lemma atan2_bounds (dy dx : R) : - PI < atan2 dy dx <= PI.
Proof.
  pose proof PI_RGT_0 as HPI.
  pose proof (atan_bound (dy / dx)) as [Hlo Hhi].
  unfold atan2.
  destruct (Rlt_dec 0 dx) as [Hpos | Hnpos].
  - rewrite Rltb_true by exact Hpos. lra.
  - rewrite Rltb_false by lra.
    destruct (Rlt_dec dx 0) as [Hneg | Hnneg].
    + rewrite Rltb_true by exact Hneg.
      assert (Hq : dy / dx * dx = dy) by (field; lra).
      destruct (Rle_dec 0 dy) as [Hy | Hy].
      * rewrite Rleb_true by exact Hy.
        assert (Hle : dy / dx <= 0) by nra.
        assert (atan (dy / dx) <= 0).
        { destruct Hle as [Hlt | Heq].
          - left. rewrite <- atan_0. now apply atan_increasing.
          - right. rewrite Heq. apply atan_0. }
        lra.
      * rewrite Rleb_false by lra.
        assert (Hgt : 0 < dy / dx) by nra.
        assert (0 < atan (dy / dx))
          by (rewrite <- atan_0; now apply atan_increasing).
        lra.
    + rewrite Rltb_false by lra.
      destruct (Rlt_dec 0 dy).
      * rewrite Rltb_true by assumption. lra.
      * rewrite Rltb_false by lra.
        destruct (Rlt_dec dy 0).
        -- rewrite Rltb_true by assumption. lra.
        -- rewrite Rltb_false by lra. lra.
Qed.

Lemma degrees_bounds (a : R) :
  - PI < a <= PI -> - 180 < a * (180 / PI) <= 180.
Proof.
  intros [Hlo Hhi]. pose proof PI_RGT_0 as HPI.
  assert (E : a * (180 / PI) = a / PI * 180) by (field; lra).
  assert (Hq : a / PI * PI = a) by (field; lra).
  rewrite E. split; nra.
Qed.

Lemma round_bounds (a : R) (lo hi : Z) :
  IZR lo <= a <= IZR hi ->
  exists n : Z, round a = IZR n /\ (lo <= n <= hi)%Z.
Proof.
  intros [Hlo Hhi]. unfold round. exists (Zfloor (a + 1 / 2)).
  split; [reflexivity |].
  pose proof (Zfloor_bound (a + 1 / 2)) as [Hf1 Hf2].
  split.
  - apply Zfloor_lub. lra.
  - apply Zlt_succ_le. apply lt_IZR. rewrite succ_IZR. lra.
Qed.

Lemma snappedAngle_range (center canvasCoords : Point) :
  exists k : Z,
    snappedAngle center canvasCoords = IZR (5 * k)
    /\ 0 <= snappedAngle center canvasCoords < 360.
Proof.
  unfold snappedAngle.
  set (dx := x canvasCoords - x center).
  set (dy := y canvasCoords - y center).
  pose proof (degrees_bounds _ (atan2_bounds dy dx)) as [Hlo Hhi].
  destruct (round_bounds (atan2 dy dx * (180 / PI) / 5) (-36) 36)
    as (n & En & Hn1 & Hn2); [lra |].
  rewrite En.
  assert (B1 : IZR (-36) <= IZR n) by now apply IZR_le.
  assert (B2 : IZR n <= IZR 36) by now apply IZR_le.
  destruct (Rlt_dec (IZR n * 5) 0) as [Hneg | Hnneg].
  - rewrite (Rltb_true _ 0) by exact Hneg.
    rewrite (Rleb_false 360) by lra.
    exists (n + 72)%Z. split.
    + rewrite mult_IZR, plus_IZR. lra.
    + lra.
  - rewrite (Rltb_false _ 0) by lra.
    rewrite (Rleb_false 360) by lra.
    exists n. split.
    + rewrite mult_IZR. lra.
    + lra.
Qed.

Lemma handleMouseMove_rotate (measureText : string -> R) (e : MouseEvent)
    (s : State) (center : Point) :
  isPanning s = false -> interactionMode s = rotate ->
  rotationCenter s = Some center ->
  handleMouseMove measureText e s =
    Some (handleRotateLabel
            (snappedAngle center (getCanvasCoordinates e s))
            (setCursorPosition (Some (getCanvasCoordinates e s)) s)).
Proof.
  intros Hp Hm Hc. unfold handleMouseMove, rotating.
  rewrite Hp, Hm, Hc. reflexivity.
Qed.

(** C5.  A pointer-move in rotate mode returns; the angle it stores in the
    edit field and in every committed line that carries the identifier of
    the selected line is a multiple of 5 in [0, 360), wherever the pointer is
    relative to the rotation center. *)
Theorem rotate_move_snaps_angle (measureText : string -> R) (e : MouseEvent)
    (s : State) (center : Point) :
  isPanning s = false ->
  interactionMode s = rotate ->
  rotationCenter s = Some center ->
  exists (s' : State) (k : Z),
    handleMouseMove measureText e s = Some s'
    /\ labelRotation s' = IZR (5 * k)
    /\ 0 <= labelRotation s' < 360
    /\ (forall sel l,
          selectedLine s = Some sel -> In l (lines s') ->
          Line.id l = Line.id sel ->
          Line.labelRotation l = labelRotation s')
    /\ (forall sel,
          selectedLine s = Some sel ->
          map Line.id (lines s') = map Line.id (lines s)).
Proof.
  intros Hp Hm Hc.
  rewrite (handleMouseMove_rotate measureText e s center Hp Hm Hc).
  destruct (snappedAngle_range center (getCanvasCoordinates e s))
    as (k & Ek & Hr).
  set (a := snappedAngle center (getCanvasCoordinates e s)) in *.
  assert (HL : labelRotation
                 (handleRotateLabel a
                    (setCursorPosition (Some (getCanvasCoordinates e s)) s))
               = a).
  { unfold handleRotateLabel. simpl. destruct (selectedLine s); reflexivity. }
  eexists. exists k. split; [reflexivity |].
  rewrite HL. split; [exact Ek |]. split; [exact Hr |].
  unfold handleRotateLabel. simpl. split.
  - intros sel l Hsel Hin Hid. rewrite Hsel in Hin. simpl in Hin.
    apply in_map_iff in Hin. destruct Hin as (l0 & El & _).
    destruct (String.eqb (Line.id l0) (Line.id sel)) eqn:Eid.
    + subst l. reflexivity.
    + subst l. apply String.eqb_neq in Eid. contradiction.
  - intros sel Hsel. rewrite Hsel. simpl. rewrite map_map.
    apply map_ext. intros l0.
    destruct (String.eqb (Line.id l0) (Line.id sel)); reflexivity.
Qed.

Lemma rotate_move_snaps_angle_witness :
  exists (s' : State) (k : Z),
    handleMouseMove fixedWidth (pointerAt 100 300) rotatingState = Some s'
    /\ labelRotation s' = IZR (5 * k)
    /\ 0 <= labelRotation s' < 360
    /\ (forall sel l,
          selectedLine rotatingState = Some sel -> In l (lines s') ->
          Line.id l = Line.id sel ->
          Line.labelRotation l = labelRotation s')
    /\ (forall sel,
          selectedLine rotatingState = Some sel ->
          map Line.id (lines s') = map Line.id (lines rotatingState)).
Proof.
  apply (rotate_move_snaps_angle fixedWidth (pointerAt 100 300) rotatingState
           (mkPoint 100 100)); reflexivity.
Defined.

(** ** Dragging a label and drawing outside the image *)

Lemma handleMouseMove_drag (measureText : string -> R) (e : MouseEvent)
    (s : State) (sel : Line) :
  isPanning s = false -> interactionMode s = drag ->
  isDraggingLabel s = true -> selectedLine s = Some sel ->
  handleMouseMove measureText e s =
    Some (handleUpdateLabelPosition (Line.id sel)
            (getImageCoordinates s (getCanvasCoordinates e s))
            (setCursorPosition (Some (getCanvasCoordinates e s)) s)).
Proof.
  intros Hp Hm Hd Hs. unfold handleMouseMove, rotating, draggingLabel.
  rewrite Hp, Hm, Hd, Hs. reflexivity.
Qed.

Lemma handleMouseMove_draw (measureText : string -> R) (e : MouseEvent)
    (s : State) (cl : Line) (hovered : option Line) :
  isPanning s = false -> interactionMode s = draw ->
  isDrawing s = true -> currentLine s = Some cl ->
  findHoveredAt measureText s (getCanvasCoordinates e s) (lines s)
    = Some hovered ->
  exists s',
    handleMouseMove measureText e s = Some s'
    /\ currentLine s' =
         Some (Line.setPoints
                 (Line.points cl ++
                    [getImageCoordinates s (getCanvasCoordinates e s)]) cl).
Proof.
  intros Hp Hm Hd Hc Hh. unfold handleMouseMove, rotating, draggingLabel.
  rewrite Hp, Hm, Hh. simpl. unfold handleDrawing. simpl. rewrite Hd, Hc.
  eexists. split; [reflexivity |]. simpl. now rewrite point_eta.
Qed.

Lemma outside_loaded_image (s : State) :
  canvasSize s = mkSize 800 600 -> imageSize s = mkSize 800 600 ->
  zoomLevel s = 1 -> panOffset s = mkPoint 0 0 ->
  canvasRect s = mkPoint 0 0 ->
  withinImageBounds s (getCanvasCoordinates (pointerAt 900 100) s) = false.
Proof.
  intros Hc Hi Hz Hp Hr.
  unfold withinImageBounds, getCanvasCoordinates, imageX, imageY.
  rewrite Hc, Hi, Hz, Hp, Hr. simpl. Rdecide. reflexivity.
Qed.

(** C2, as stated, fails: a drag with the pointer right of the image moves
    the label of the selected line from (50, 50) to (0, 0). *)
Lemma drag_outside_image_moves_label :
  withinImageBounds draggingState
    (getCanvasCoordinates (pointerAt 900 100) draggingState) = false
  /\ lines draggingState = [labelledLine]
  /\ Line.labelPosition labelledLine = Some (mkPoint 50 50)
  /\ exists s',
       handleMouseMove fixedWidth (pointerAt 900 100) draggingState = Some s'
       /\ lines s' = [Line.setLabelPosition (Some (mkPoint 0 0)) labelledLine]
       /\ lines s' <> lines draggingState.
Proof.
  split; [apply outside_loaded_image; reflexivity |].
  split; [reflexivity |]. split; [reflexivity |].
  eexists. split.
  - apply (handleMouseMove_drag fixedWidth _ draggingState labelledLine);
      reflexivity.
  - rewrite getImageCoordinates_outside
      by (apply outside_loaded_image; reflexivity).
    split; [reflexivity |].
    simpl. intros H. injection H as H. lra.
Qed.

(** C2, amended.  A pointer-move in drag mode, with the label-dragging flag
    set, a line selected and no panning in progress, overwrites the label
    position of every committed line that carries the identifier of the
    selected line: with the image-space coordinates of the pointer when the
    pointer is within the bounds of the displayed image, with (0, 0) when it
    is outside. *)
Theorem drag_move_overwrites_label_position (measureText : string -> R)
    (e : MouseEvent) (s : State) (sel : Line) :
  isPanning s = false ->
  interactionMode s = drag ->
  isDraggingLabel s = true ->
  selectedLine s = Some sel ->
  exists (s' : State) (position : Point),
    handleMouseMove measureText e s = Some s'
    /\ lines s' =
         map (fun line =>
                if String.eqb (Line.id line) (Line.id sel)
                then Line.setLabelPosition (Some position) line else line)
             (lines s)
    /\ (withinImageBounds s (getCanvasCoordinates e s) = true ->
        position =
          mkPoint
            ((x (getCanvasCoordinates e s) - imageX s) / effectiveScale s)
            ((y (getCanvasCoordinates e s) - imageY s) / effectiveScale s))
    /\ (withinImageBounds s (getCanvasCoordinates e s) = false ->
        position = mkPoint 0 0).
Proof.
  intros Hp Hm Hd Hs.
  rewrite (handleMouseMove_drag measureText e s sel Hp Hm Hd Hs).
  eexists. exists (getImageCoordinates s (getCanvasCoordinates e s)).
  split; [reflexivity |]. split; [reflexivity |].
  split; [apply getImageCoordinates_inside
         | apply getImageCoordinates_outside].
Qed.

Lemma drag_move_overwrites_label_position_witness :
  exists (s' : State) (position : Point),
    handleMouseMove fixedWidth (pointerAt 200 200) draggingState = Some s'
    /\ lines s' =
         map (fun line =>
                if String.eqb (Line.id line) (Line.id labelledLine)
                then Line.setLabelPosition (Some position) line else line)
             (lines draggingState)
    /\ (withinImageBounds draggingState
          (getCanvasCoordinates (pointerAt 200 200) draggingState) = true ->
        position =
          mkPoint
            ((x (getCanvasCoordinates (pointerAt 200 200) draggingState)
              - imageX draggingState) / effectiveScale draggingState)
            ((y (getCanvasCoordinates (pointerAt 200 200) draggingState)
              - imageY draggingState) / effectiveScale draggingState))
    /\ (withinImageBounds draggingState
          (getCanvasCoordinates (pointerAt 200 200) draggingState) = false ->
        position = mkPoint 0 0).
Proof.
  apply (drag_move_overwrites_label_position fixedWidth (pointerAt 200 200)
           draggingState labelledLine); reflexivity.
Defined.

(** C10.  For a pointer outside the bounds of the displayed image
    [getImageCoordinates] returns the point (0, 0) and nothing else (its
    result is a [Point]); the top-left corner of the image, which is within
    the bounds, has the same image coordinates.  The callers take the value
    as an image point: in draw mode it is appended to the line in progress,
    in drag mode it becomes the label position. *)
Theorem outside_image_yields_origin (measureText : string -> R)
    (e : MouseEvent) (s : State) :
  withinImageBounds s (getCanvasCoordinates e s) = false ->
  getImageCoordinates s (getCanvasCoordinates e s) = mkPoint 0 0
  /\ getImageCoordinates s (mkPoint (imageX s) (imageY s)) = mkPoint 0 0
  /\ (0 <= width (imageSize s) * zoomLevel s ->
      0 <= height (imageSize s) * zoomLevel s ->
      withinImageBounds s (mkPoint (imageX s) (imageY s)) = true)
  /\ (forall cl hovered,
        isPanning s = false -> interactionMode s = draw ->
        isDrawing s = true -> currentLine s = Some cl ->
        findHoveredAt measureText s (getCanvasCoordinates e s) (lines s)
          = Some hovered ->
        exists s',
          handleMouseMove measureText e s = Some s'
          /\ currentLine s' =
               Some (Line.setPoints (Line.points cl ++ [mkPoint 0 0]) cl))
  /\ (forall sel,
        isPanning s = false -> interactionMode s = drag ->
        isDraggingLabel s = true -> selectedLine s = Some sel ->
        exists s',
          handleMouseMove measureText e s = Some s'
          /\ lines s' =
               map (fun line =>
                      if String.eqb (Line.id line) (Line.id sel)
                      then Line.setLabelPosition (Some (mkPoint 0 0)) line
                      else line)
                   (lines s)).
Proof.
  intros Hout.
  pose proof (getImageCoordinates_outside s _ Hout) as E.
  split; [exact E |]. split.
  - unfold getImageCoordinates. simpl.
    destruct (withinImageBounds s (mkPoint (imageX s) (imageY s)));
      [| reflexivity].
    f_equal; unfold Rdiv; ring.
  - split.
    + intros Hw Hh. unfold withinImageBounds. simpl.
      rewrite !Rleb_true by lra. reflexivity.
    + split.
      * intros cl hovered Hp Hm Hd Hc Hh. rewrite <- E.
        exact (handleMouseMove_draw measureText e s cl hovered
                 Hp Hm Hd Hc Hh).
      * intros sel Hp Hm Hd Hs.
        rewrite (handleMouseMove_drag measureText e s sel Hp Hm Hd Hs).
        eexists. split; [reflexivity |]. rewrite E. reflexivity.
Qed.

Lemma outside_image_yields_origin_witness :
  getImageCoordinates draggingState
    (getCanvasCoordinates (pointerAt 900 100) draggingState) = mkPoint 0 0
  /\ exists s',
       handleMouseMove fixedWidth (pointerAt 900 100) draggingState = Some s'
       /\ lines s' =
            map (fun line =>
                   if String.eqb (Line.id line) (Line.id labelledLine)
                   then Line.setLabelPosition (Some (mkPoint 0 0)) line
                   else line)
                (lines draggingState).
Proof.
  destruct (outside_image_yields_origin fixedWidth (pointerAt 900 100)
              draggingState) as (H1 & _ & _ & _ & H5).
  - apply outside_loaded_image; reflexivity.
  - split; [exact H1 |].
    apply (H5 labelledLine); reflexivity.
Defined.

(** ** Hit testing of strokes *)

Lemma segmentHit_iff (point : Point) (threshold : R) (pts : list Point) :
  segmentHit point threshold pts = true <->
  exists (i : nat) (p1 p2 : Point),
    nth_error pts i = Some p1
    /\ nth_error pts (S i) = Some p2
    /\ distanceToLineSegment point p1 p2 < threshold.
Proof.
  induction pts as [| p1 rest IH].
  - simpl. split; [discriminate |].
    intros (i & q1 & q2 & H1 & _). destruct i; discriminate H1.
  - destruct rest as [| p2 rest'].
    + simpl. split; [discriminate |].
      intros (i & q1 & q2 & H1 & H2 & _).
      destruct i as [| i]; [discriminate H2 |].
      destruct i; discriminate H1.
    + change (segmentHit point threshold (p1 :: p2 :: rest'))
        with (if Rltb (distanceToLineSegment point p1 p2) threshold
              then true else segmentHit point threshold (p2 :: rest')).
      destruct (Rltb (distanceToLineSegment point p1 p2) threshold) eqn:E.
      * split; [| reflexivity]. intros _.
        exists 0%nat, p1, p2. repeat split. now apply Rltb_lt.
      * rewrite IH. split.
        -- intros (i & q1 & q2 & H1 & H2 & Hd).
           exists (S i), q1, q2. repeat split; assumption.
        -- intros (i & q1 & q2 & H1 & H2 & Hd).
           destruct i as [| i].
           ++ simpl in H1, H2. injection H1 as <-. injection H2 as <-.
              apply Rltb_ge in E. lra.
           ++ exists i, q1, q2. repeat split; assumption.
Qed.

Lemma findLineIn_some (s : State) (point : Point) (ls : list Line)
    (line : Line) :
  findLineIn s point ls = Some line ->
  In line ls /\ lineHit s point line = true.
Proof.
  induction ls as [| l ls IH]; simpl; [discriminate |].
  destruct (lineHit s point l) eqn:E.
  - intros H. injection H as <-. split; [now left | exact E].
  - intros H. destruct (IH H) as [Hin Hhit]. split; [now right | exact Hhit].
Qed.

Lemma findLineIn_hit (s : State) (point : Point) (ls : list Line)
    (line : Line) :
  In line ls -> lineHit s point line = true ->
  exists found, findLineIn s point ls = Some found.
Proof.
  induction ls as [| l ls IH]; simpl; [contradiction |].
  intros Hin Hhit. destruct (lineHit s point l) eqn:E.
  - now exists l.
  - destruct Hin as [-> | Hin]; [congruence |]. now apply IH.
Qed.

Lemma hitThreshold_thickness (s : State) (line : Line) :
  LineThickness (Line.thickness line) ->
  hitThreshold s line = Line.thickness line * 2 / (scale s * zoomLevel s).
Proof.
  intros H. unfold hitThreshold.
  rewrite orDefault_nonzero; [reflexivity |].
  destruct H as [-> | [-> | ->]]; lra.
Qed.

(** C4.  A committed line is hit by an image-space point exactly when some
    pair of consecutive points of the line lies at a segment distance
    strictly below thickness * 2 / (scale * zoomLevel), and
    [findLineAtPoint] finds a line exactly when some committed line is hit.
    At a positive base scale the threshold at zoom 2 is half the threshold
    at zoom 1, so that a given screen-space distance is a hit at zoom 2
    (where it is half the image-space distance) exactly when it is a hit at
    zoom 1. *)
Theorem stroke_hit_threshold (s : State) (point : Point) (line : Line) :
  LineThickness (Line.thickness line) ->
  0 < scale s ->
  (lineHit s point line = true <->
   exists (i : nat) (p1 p2 : Point),
     nth_error (Line.points line) i = Some p1
     /\ nth_error (Line.points line) (S i) = Some p2
     /\ distanceToLineSegment point p1 p2
        < Line.thickness line * 2 / (scale s * zoomLevel s))
  /\ ((exists found, findLineAtPoint s point = Some found) <->
      (exists l, In l (lines s) /\ lineHit s point l = true))
  /\ (forall found, findLineAtPoint s point = Some found ->
        In found (lines s) /\ lineHit s point found = true)
  /\ (forall (s1 s2 : State) (screenDistance : R),
        scale s1 = scale s -> scale s2 = scale s ->
        zoomLevel s1 = 1 -> zoomLevel s2 = 2 ->
        hitThreshold s2 line = hitThreshold s1 line / 2
        /\ screenDistance / effectiveScale s2
           = screenDistance / effectiveScale s1 / 2
        /\ (screenDistance / effectiveScale s2 < hitThreshold s2 line <->
            screenDistance / effectiveScale s1 < hitThreshold s1 line)).
Proof.
  intros Ht Hs. split.
  - unfold lineHit. rewrite (hitThreshold_thickness s line Ht).
    apply segmentHit_iff.
  - split.
    + split.
      * intros (found & H). exists found.
        now apply findLineIn_some in H.
      * intros (l & Hin & Hhit). now apply (findLineIn_hit s point _ l).
    + split.
      * intros found H. now apply findLineIn_some in H.
      * intros s1 s2 d H1 H2 Hz1 Hz2.
        rewrite (hitThreshold_thickness s1 line Ht).
        rewrite (hitThreshold_thickness s2 line Ht).
        unfold effectiveScale. rewrite H1, H2, Hz1, Hz2.
        assert (E1 : Line.thickness line * 2 / (scale s * 2)
                     = Line.thickness line * 2 / (scale s * 1) / 2)
          by (field; lra).
        assert (E2 : d / (scale s * 2) = d / (scale s * 1) / 2)
          by (field; lra).
        split; [exact E1 |]. split; [exact E2 |].
        rewrite E1, E2. lra.
Qed.

(** The point (50, 1) lies within the threshold of the thin line. *)
Lemma thinLine_hit_at_unit_scale :
  distanceToLineSegment (mkPoint 50 1) (mkPoint 0 0) (mkPoint 100 0) < 2.
Proof.
  unfold distanceToLineSegment. simpl.
  rewrite (Reqb_false _ 0) by lra. simpl.
  rewrite (Rltb_false _ 0) by lra.
  rewrite (Rltb_false 1 _) by lra.
  apply Rlt_le_trans with (sqrt (2 * 2));
    [| rewrite sqrt_square; lra].
  apply sqrt_lt_1_alt. split; lra.
Qed.

Lemma stroke_hit_threshold_witness :
  lineHit unitScaleState (mkPoint 50 1) thinLine = true.
Proof.
  refine (proj2 (proj1 (stroke_hit_threshold unitScaleState (mkPoint 50 1)
                          thinLine _ _)) _).
  - left. reflexivity.
  - simpl. lra.
  - exists 0%nat, (mkPoint 0 0), (mkPoint 100 0).
    split; [reflexivity |]. split; [reflexivity |].
    simpl. replace (1 * 2 / (1 * 1)) with 2 by field.
    exact thinLine_hit_at_unit_scale.
Defined.

(** ** The wheel *)

Lemma handleWheel_zoomLevel (e : WheelEvent) (s : State) :
  zoomLevel (fst (handleWheel e s)) = zoomLevel s.
Proof.
  unfold handleWheel. simpl.
  destruct (Rltb 0 (wheelDelta e)); reflexivity.
Qed.

Lemma wheelNewZoom_up (e : WheelEvent) (s : State) :
  deltaY e <= 0 ->
  wheelNewZoom e s = Rmax (1 / 2) (Rmin 3 (zoomLevel s + 1 / 10)).
Proof.
  intros H. unfold wheelNewZoom, wheelDelta.
  now rewrite Rltb_false.
Qed.

(** C6, on the code.  One notch up at zoom level 1: the handler computes
    the zoom level 1.1 and writes it to the console, and the zoom level of
    the canvas is still 1; the zoom button does change it to 1.1.  At 2.95
    the value computed is 3. *)
Theorem wheel_leaves_zoomLevel :
  zoomLevel loadedState = 1
  /\ snd (handleWheel (mkWheelEvent (-100) 400 300) loadedState) = 11 / 10
  /\ zoomLevel (fst (handleWheel (mkWheelEvent (-100) 400 300) loadedState))
     = 1
  /\ zoomLevel (handleZoomIn loadedState) = 11 / 10
  /\ snd (handleWheel (mkWheelEvent (-100) 400 300)
            (setZoomLevel (295 / 100) loadedState)) = 3
  /\ zoomLevel
       (fst (handleWheel (mkWheelEvent (-100) 400 300)
               (setZoomLevel (295 / 100) loadedState))) = 295 / 100.
Proof.
  split; [reflexivity |]. split.
  { unfold handleWheel. simpl. rewrite wheelNewZoom_up by (simpl; lra).
    simpl. unfold Rmin, Rmax.
    repeat (destruct (Rle_dec _ _); try lra). }
  split; [rewrite handleWheel_zoomLevel; reflexivity |].
  split.
  { unfold handleZoomIn. simpl. unfold Rmin.
    destruct (Rle_dec _ _); lra. }
  split; [| rewrite handleWheel_zoomLevel; reflexivity].
  unfold handleWheel. simpl. rewrite wheelNewZoom_up by (simpl; lra).
  simpl. unfold Rmin, Rmax.
  repeat (destruct (Rle_dec _ _); try lra).
Qed.

(** * Further properties of the code *)

(** ** The viewport transform, both ways *)

Lemma Rleb_iff (a b : R) : Rleb a b = true <-> a <= b.
Proof. split; [apply Rleb_le | apply Rleb_true]. Qed.

Lemma Rleb_false_iff (a b : R) : Rleb a b = false <-> b < a.
Proof.
  split; [| apply Rleb_false].
  unfold Rleb. destruct (Rle_dec a b); [discriminate | lra].
Qed.

Lemma withinImageBounds_iff (s : State) (c : Point) :
  withinImageBounds s c = true <->
  imageX s <= x c <= imageX s + width (imageSize s) * zoomLevel s
  /\ imageY s <= y c <= imageY s + height (imageSize s) * zoomLevel s.
Proof.
  unfold withinImageBounds. rewrite !andb_true_iff, !Rleb_iff. tauto.
Qed.





(** ** Sizing the canvas *)



(** ** Distances and strokes *)

Lemma distance_self (p : Point) : distance p p = 0.
Proof.
  unfold distance.
  replace ((x p - x p) * (x p - x p) + (y p - y p) * (y p - y p)) with 0
    by ring.
  apply sqrt_0.
Qed.

Lemma distanceToLineSegment_nonneg (p a b : Point) :
  0 <= distanceToLineSegment p a b.
Proof. unfold distanceToLineSegment. apply sqrt_pos. Qed.

Lemma distanceToLineSegment_le_start (p a b : Point) :
  distanceToLineSegment p a b <= distance p a.
Proof.
  unfold distanceToLineSegment, distance.
  set (A := x p - x a). set (B := y p - y a).
  set (C := x b - x a). set (D := y b - y a).
  destruct (Req_dec_T (C * C + D * D) 0) as [Hz | Hnz].
  - rewrite (Reqb_true _ 0) by exact Hz. simpl.
    rewrite (Rltb_true (-1) 0) by lra. fold A B. lra.
  - rewrite (Reqb_false _ 0) by exact Hnz. simpl.
    assert (HL : 0 < C * C + D * D) by nra.
    set (t := (A * C + B * D) / (C * C + D * D)).
    assert (Ht : t * (C * C + D * D) = A * C + B * D)
      by (unfold t; field; lra).
    destruct (Rlt_dec t 0) as [Hneg | Hnneg].
    + rewrite (Rltb_true t 0) by exact Hneg. fold A B. lra.
    + rewrite (Rltb_false t 0) by lra.
      destruct (Rlt_dec 1 t) as [Hbig | Hsmall].
      * rewrite (Rltb_true 1 t) by exact Hbig.
        apply sqrt_le_1_alt.
        replace (x p - x b) with (A - C) by (unfold A, C; ring).
        replace (y p - y b) with (B - D) by (unfold B, D; ring).
        nra.
      * rewrite (Rltb_false 1 t) by lra.
        apply sqrt_le_1_alt.
        replace (x p - (x a + t * C)) with (A - t * C) by (unfold A; ring).
        replace (y p - (y a + t * D)) with (B - t * D) by (unfold B; ring).
        assert (E : (A - t * C) * (A - t * C) + (B - t * D) * (B - t * D)
                    = A * A + B * B - t * (A * C + B * D)).
        { replace ((A - t * C) * (A - t * C) + (B - t * D) * (B - t * D))
            with (A * A + B * B - 2 * t * (A * C + B * D)
                  + t * (t * (C * C + D * D))) by ring.
          rewrite Ht. ring. }
        rewrite E. assert (0 <= t * (A * C + B * D)); [| lra].
        rewrite <- Ht. nra.
Qed.

Lemma distanceToLineSegment_le_end (p a b : Point) :
  distanceToLineSegment p a b <= distance p b.
Proof.
  unfold distanceToLineSegment, distance.
  set (A := x p - x a). set (B := y p - y a).
  set (C := x b - x a). set (D := y b - y a).
  assert (EA : x p - x b = A - C) by (unfold A, C; ring).
  assert (EB : y p - y b = B - D) by (unfold B, D; ring).
  destruct (Req_dec_T (C * C + D * D) 0) as [Hz | Hnz].
  - rewrite (Reqb_true _ 0) by exact Hz. simpl.
    rewrite (Rltb_true (-1) 0) by lra. fold A B.
    assert (C = 0) by nra. assert (D = 0) by nra.
    rewrite EA, EB. apply sqrt_le_1_alt. nra.
  - rewrite (Reqb_false _ 0) by exact Hnz. simpl.
    assert (HL : 0 < C * C + D * D) by nra.
    set (t := (A * C + B * D) / (C * C + D * D)).
    assert (Ht : t * (C * C + D * D) = A * C + B * D)
      by (unfold t; field; lra).
    destruct (Rlt_dec t 0) as [Hneg | Hnneg].
    + rewrite (Rltb_true t 0) by exact Hneg. fold A B.
      rewrite EA, EB. apply sqrt_le_1_alt. nra.
    + rewrite (Rltb_false t 0) by lra.
      destruct (Rlt_dec 1 t) as [Hbig | Hsmall].
      * rewrite (Rltb_true 1 t) by exact Hbig. lra.
      * rewrite (Rltb_false 1 t) by lra.
        rewrite EA, EB. apply sqrt_le_1_alt.
        replace (x p - (x a + t * C)) with (A - t * C) by (unfold A; ring).
        replace (y p - (y a + t * D)) with (B - t * D) by (unfold B; ring).
        assert (E : (A - C) * (A - C) + (B - D) * (B - D)
                    - ((A - t * C) * (A - t * C) + (B - t * D) * (B - t * D))
                    = (C * C + D * D) * ((1 - t) * (1 - t))).
        { replace ((A - C) * (A - C) + (B - D) * (B - D)
                   - ((A - t * C) * (A - t * C)
                      + (B - t * D) * (B - t * D)))
            with ((C * C + D * D) * (1 - t * t)
                  - 2 * (1 - t) * (A * C + B * D)) by ring.
          rewrite <- Ht. ring. }
        assert (0 <= (C * C + D * D) * ((1 - t) * (1 - t)))
          by (apply Rmult_le_pos; [lra | nra]).
        lra.
Qed.


Lemma segmentHit_short (point : Point) (threshold : R) (pts : list Point) :
  (List.length pts < 2)%nat -> segmentHit point threshold pts = false.
Proof.
  destruct pts as [| p1 [| p2 rest]]; simpl; intros H;
    [reflexivity | reflexivity | lia].
Qed.

Lemma hitThreshold_positive (s : State) (line : Line) :
  LineThickness (Line.thickness line) -> 0 < scale s * zoomLevel s ->
  0 < hitThreshold s line.
Proof.
  intros Ht Hs. rewrite hitThreshold_thickness by exact Ht.
  apply Rdiv_lt_0_compat; [| exact Hs].
  destruct Ht as [-> | [-> | ->]]; lra.
Qed.

Lemma vertex_in_segment (A : Type) (pts : list A) (v : A) :
  (2 <= List.length pts)%nat -> In v pts ->
  exists (i : nat) (p1 p2 : A),
    nth_error pts i = Some p1 /\ nth_error pts (S i) = Some p2
    /\ (v = p1 \/ v = p2).
Proof.
  intros Hlen Hin. apply In_nth_error in Hin. destruct Hin as [i Hi].
  assert (Hlt : (i < List.length pts)%nat)
    by (apply nth_error_Some; congruence).
  destruct (nth_error pts (S i)) as [q |] eqn:Hn.
  - exists i, v, q. repeat split; auto.
  - apply nth_error_None in Hn.
    destruct i as [| j]; [lia |].
    destruct (nth_error pts j) as [q |] eqn:Hj.
    + exists j, q, v. repeat split; auto.
    + apply nth_error_None in Hj. lia.
Qed.

(** X5.  At a positive effective scale, a click exactly on a recorded point
    of a committed line of 2 points or more, of one of the tool's
    thicknesses, hits that line, and [findLineAtPoint] finds a line there. *)
Theorem click_on_vertex_hits (s : State) (line : Line) (v : Point) :
  0 < scale s * zoomLevel s ->
  LineThickness (Line.thickness line) ->
  (2 <= List.length (Line.points line))%nat ->
  In v (Line.points line) ->
  lineHit s v line = true
  /\ (In line (lines s) -> exists found, findLineAtPoint s v = Some found).
Proof.
  intros Hs Ht Hlen Hin.
  assert (Hhit : lineHit s v line = true).
  { unfold lineHit. apply segmentHit_iff.
    destruct (vertex_in_segment _ _ v Hlen Hin)
      as (i & p1 & p2 & H1 & H2 & Hv).
    exists i, p1, p2. split; [exact H1 |]. split; [exact H2 |].
    pose proof (hitThreshold_positive s line Ht Hs) as Hpos.
    pose proof (distanceToLineSegment_nonneg v p1 p2).
    destruct Hv as [-> | ->].
    - pose proof (distanceToLineSegment_le_start p1 p1 p2) as H3.
      rewrite distance_self in H3. lra.
    - pose proof (distanceToLineSegment_le_end p2 p1 p2) as H3.
      rewrite distance_self in H3. lra. }
  split; [exact Hhit |].
  intros Hl. unfold findLineAtPoint.
  now apply (findLineIn_hit s v (lines s) line).
Qed.

Lemma click_on_vertex_hits_witness :
  lineHit unitScaleState (mkPoint 100 0) thinLine = true
  /\ (In thinLine (lines unitScaleState) ->
      exists found,
        findLineAtPoint unitScaleState (mkPoint 100 0) = Some found).
Proof.
  apply (click_on_vertex_hits unitScaleState thinLine (mkPoint 100 0)).
  - simpl. lra.
  - left. reflexivity.
  - simpl. lia.
  - simpl. right. left. reflexivity.
Defined.

Lemma findLineIn_first (s : State) (point : Point) (ls : list Line)
    (line : Line) :
  findLineIn s point ls = Some line <->
  exists before after,
    ls = before ++ line :: after
    /\ lineHit s point line = true
    /\ (forall l, In l before -> lineHit s point l = false).
Proof.
  induction ls as [| l ls IH]; simpl.
  - split; [discriminate |].
    intros (before & after & E & _). destruct before; discriminate E.
  - destruct (lineHit s point l) eqn:El.
    + split.
      * intros H. injection H as <-. exists [], ls.
        split; [reflexivity |]. split; [exact El |]. intros l' [].
      * intros (before & after & E & Hhit & Hbefore).
        destruct before as [| b before].
        -- simpl in E. injection E as -> _. reflexivity.
        -- simpl in E. injection E as -> _.
           rewrite (Hbefore b) in El by (left; reflexivity). discriminate El.
    + rewrite IH. split.
      * intros (before & after & E & Hhit & Hbefore).
        exists (l :: before), after. split; [simpl; now rewrite E |].
        split; [exact Hhit |].
        intros l' [<- | Hl']; [exact El | now apply Hbefore].
      * intros (before & after & E & Hhit & Hbefore).
        destruct before as [| b before].
        -- simpl in E. injection E as -> _. congruence.
        -- simpl in E. injection E as -> ->.
           exists before, after. split; [reflexivity |].
           split; [exact Hhit |].
           intros l' Hl'. apply Hbefore. now right.
Qed.

(** X6.  [findLineAtPoint] returns the first committed line, in drawing
    order, that the point hits: the line it returns is hit and no line
    before it is.  A line of fewer than 2 points is never hit and never
    returned. *)
Theorem findLineAtPoint_first_drawn (s : State) (point : Point)
    (line : Line) :
  (findLineAtPoint s point = Some line <->
   exists before after,
     lines s = before ++ line :: after
     /\ lineHit s point line = true
     /\ (forall l, In l before -> lineHit s point l = false))
  /\ ((List.length (Line.points line) < 2)%nat ->
      lineHit s point line = false
      /\ findLineAtPoint s point <> Some line).
Proof.
  split; [apply findLineIn_first |].
  intros Hlen.
  assert (Hno : lineHit s point line = false)
    by (unfold lineHit; now apply segmentHit_short).
  split; [exact Hno |].
  intros H. apply findLineIn_some in H. destruct H as [_ H]. congruence.
Qed.

(** ** The hit areas of a label *)

Section LabelAreas.

Variable measureText : string -> R.

Lemma isPointNearLabel_box (s : State) (c : Point) (line : Line)
    (anchor : Point) :
  Line.hasLabel line = true ->
  labelScreenPosition s line = Some anchor ->
  exists near,
    isPointNearLabel measureText s c line = Some near
    /\ (near = true <->
        - (measureText (Line.label line) / 2 + 4) <= x c - x anchor
          <= measureText (Line.label line) / 2 + 4
        /\ - 11 <= y c - y anchor <= 11).
Proof.
  intros Hl Ha. unfold isPointNearLabel. rewrite Hl, Ha. simpl.
  eexists. split; [reflexivity |].
  rewrite !andb_true_iff, !Rleb_iff. split.
  - intros [[[H1 H2] H3] H4]. repeat split; lra.
  - intros [[H1 H2] [H3 H4]]. repeat split; lra.
Qed.

Lemma isPointNearRotationControl_disc (s : State) (c : Point) (line : Line)
    (anchor : Point) :
  Line.hasLabel line = true ->
  labelScreenPosition s line = Some anchor ->
  isPointNearRotationControl measureText s c line = Some true ->
  (x c - (x anchor + measureText (Line.label line) / 2 + 12))
  * (x c - (x anchor + measureText (Line.label line) / 2 + 12))
  + (y c - y anchor) * (y c - y anchor) <= 64.
Proof.
  intros Hl Ha. unfold isPointNearRotationControl. rewrite Hl, Ha. simpl.
  intros H. injection H as H. apply Rleb_le in H.
  match type of H with
  | sqrt ?e <= _ =>
      assert (He : 0 <= e)
        by (apply Rplus_le_le_0_compat; apply Rle_0_sqr);
      pose proof (sqrt_pos e) as Hp;
      pose proof (sqrt_sqrt e He) as Hq;
      assert (Hle : e <= 64);
      [ rewrite <- Hq; generalize dependent (sqrt e); intros q; intros; nra
      | ]
  end.
  lra.
Qed.

(** X7.  The hit area of a label is the upright rectangle around its anchor,
    half the text width plus 4 to either side and 11 above and below,
    whatever the rotation of the label; a line without label text is never
    near. *)
Theorem label_hit_area (s : State) (c : Point) (line : Line)
    (anchor : Point) (angle : R) :
  labelScreenPosition s line = Some anchor ->
  (Line.hasLabel line = false ->
   isPointNearLabel measureText s c line = Some false)
  /\ (Line.hasLabel line = true ->
      exists near,
        isPointNearLabel measureText s c line = Some near
        /\ (near = true <->
            - (measureText (Line.label line) / 2 + 4) <= x c - x anchor
              <= measureText (Line.label line) / 2 + 4
            /\ - 11 <= y c - y anchor <= 11))
  /\ isPointNearLabel measureText s c (Line.setLabelRotation angle line)
     = isPointNearLabel measureText s c line.
Proof.
  intros Ha. split.
  - intros Hl. unfold isPointNearLabel. now rewrite Hl.
  - split.
    + intros Hl. now apply isPointNearLabel_box.
    + reflexivity.
Qed.

(** X8.  The rotation control and the label area of a line share a single
    point, the middle of the right edge of the label area: a pointer near
    both is exactly there. *)
Theorem rotation_control_meets_label_area (s : State) (c : Point)
    (line : Line) (anchor : Point) :
  labelScreenPosition s line = Some anchor ->
  isPointNearLabel measureText s c line = Some true ->
  isPointNearRotationControl measureText s c line = Some true ->
  c = mkPoint (x anchor + measureText (Line.label line) / 2 + 4) (y anchor).
Proof.
  intros Ha Hlab Hrot.
  destruct (Line.hasLabel line) eqn:Hl.
  - destruct (isPointNearLabel_box s c line anchor Hl Ha)
      as (near & E & Hiff).
    rewrite Hlab in E. injection E as <-.
    destruct (proj1 Hiff eq_refl) as [[_ Hx] _].
    pose proof (isPointNearRotationControl_disc s c line anchor Hl Ha Hrot)
      as Hd.
    set (w := measureText (Line.label line)) in *.
    assert (Hdx : x c - (x anchor + w / 2 + 12) <= - 8) by lra.
    assert (Hy : y c - y anchor = 0) by nra.
    assert (Hx' : x c - (x anchor + w / 2 + 12) = - 8) by nra.
    rewrite <- (point_eta c). f_equal; lra.
  - unfold isPointNearLabel in Hlab. rewrite Hl in Hlab. discriminate Hlab.
Qed.

End LabelAreas.

Lemma label_hit_area_witness :
  (Line.hasLabel labelledLine = false ->
   isPointNearLabel fixedWidth hoveringState (mkPoint 110 105) labelledLine
   = Some false)
  /\ (Line.hasLabel labelledLine = true ->
      exists near,
        isPointNearLabel fixedWidth hoveringState (mkPoint 110 105)
          labelledLine = Some near
        /\ (near = true <->
            - (fixedWidth (Line.label labelledLine) / 2 + 4)
              <= x (mkPoint 110 105) - x (mkPoint 100 100)
              <= fixedWidth (Line.label labelledLine) / 2 + 4
            /\ - 11 <= y (mkPoint 110 105) - y (mkPoint 100 100) <= 11))
  /\ isPointNearLabel fixedWidth hoveringState (mkPoint 110 105)
       (Line.setLabelRotation 45 labelledLine)
     = isPointNearLabel fixedWidth hoveringState (mkPoint 110 105)
         labelledLine.
Proof.
  apply (label_hit_area fixedWidth hoveringState (mkPoint 110 105)
           labelledLine (mkPoint 100 100) 45).
  exact (proj2 rotation_control_pressed).
Defined.

Lemma label_area_edge_near :
  isPointNearLabel fixedWidth hoveringState (mkPoint 124 100) labelledLine
  = Some true
  /\ isPointNearRotationControl fixedWidth hoveringState (mkPoint 124 100)
       labelledLine = Some true.
Proof.
  unfold isPointNearLabel, isPointNearRotationControl, labelScreenPosition,
    imageX, imageY, effectiveScale, fixedWidth. simpl. split.
  - f_equal. rewrite !Rleb_true by lra. reflexivity.
  - f_equal. apply Rleb_true.
    apply Rle_trans with (sqrt (8 * 8)); [| rewrite sqrt_square; lra].
    apply sqrt_le_1_alt. lra.
Qed.

Lemma rotation_control_meets_label_area_witness :
  mkPoint 124 100
  = mkPoint (x (mkPoint 100 100) + fixedWidth (Line.label labelledLine) / 2
             + 4)
            (y (mkPoint 100 100)).
Proof.
  apply (rotation_control_meets_label_area fixedWidth hoveringState
           (mkPoint 124 100) labelledLine (mkPoint 100 100)).
  - exact (proj2 rotation_control_pressed).
  - exact (proj1 label_area_edge_near).
  - exact (proj2 label_area_edge_near).
Defined.

(** ** Editing the committed lines *)

Lemma state_eta (s : State) :
  mkState (lines s) (currentLine s) (isDrawing s) (selectedLine s) (color s)
    (opacity s) (label s) (labelRotation s) (zoomLevel s) (isRotatingLabel s)
    (thickness s) (panOffset s) (canvasSize s) (imageSize s) (scale s)
    (isPanning s) (lastPanPoint s) (hoveredLabel s) (isDraggingLabel s)
    (rotationStartAngle s) (rotationCenter s) (interactionMode s)
    (cursorPosition s) (canvasRect s) = s.
Proof. destruct s; reflexivity. Qed.

Lemma line_eta (l : Line) :
  Line.mk (Line.id l) (Line.points l) (Line.color l) (Line.opacity l)
          (Line.label l) (Line.labelRotation l) (Line.labelPosition l)
          (Line.thickness l) = l.
Proof. destruct l; reflexivity. Qed.

(** X9.  Deleting the selected line removes every committed line that
    carries its identifier, keeps the others in their order and clears the
    selection; when the identifiers are distinct and the selected line is
    committed, exactly one line goes. *)
Theorem delete_removes_selected (s : State) (sel : Line) :
  selectedLine s = Some sel ->
  selectedLine (handleDeleteLine s) = None
  /\ lines (handleDeleteLine s)
     = filter (fun line => negb (String.eqb (Line.id line) (Line.id sel)))
              (lines s)
  /\ (forall line, In line (lines (handleDeleteLine s)) <->
                   In line (lines s) /\ Line.id line <> Line.id sel)
  /\ (NoDup (map Line.id (lines s)) -> In sel (lines s) ->
      S (List.length (lines (handleDeleteLine s))) = List.length (lines s)).
Proof.
  intros Hsel. unfold handleDeleteLine. rewrite Hsel. simpl.
  split; [reflexivity |]. split; [reflexivity |]. split.
  - intros line. rewrite filter_In, negb_true_iff, String.eqb_neq. tauto.
  - generalize (lines s) as ls. induction ls as [| l ls IH]; simpl.
    + intros _ [].
    + intros Hnd Hin. inversion Hnd as [| ? ? Hnot Hnd']; subst.
      destruct (String.eqb (Line.id l) (Line.id sel)) eqn:E; simpl.
      * apply String.eqb_eq in E. f_equal.
        assert (Hall : forall l', In l' ls ->
                  negb (String.eqb (Line.id l') (Line.id sel)) = true).
        { intros l' Hl'. rewrite negb_true_iff, String.eqb_neq.
          intros Heq. apply Hnot. rewrite E, <- Heq.
          now apply in_map. }
        clear -Hall. induction ls as [| a ls IH]; simpl; [reflexivity |].
        rewrite (Hall a) by (left; reflexivity). simpl. f_equal.
        apply IH. intros l' Hl'. apply Hall. now right.
      * f_equal. apply IH; [exact Hnd' |].
        destruct Hin as [-> | Hin]; [| exact Hin].
        rewrite String.eqb_refl in E. discriminate E.
Qed.

Lemma delete_removes_selected_witness :
  selectedLine (handleDeleteLine selectedState) = None
  /\ lines (handleDeleteLine selectedState) = [].
Proof.
  destruct (delete_removes_selected selectedState twoPointLine eq_refl)
    as (H1 & H2 & _).
  split; [exact H1 |]. rewrite H2. reflexivity.
Defined.

(** X10.  Undo takes back the commit of a line: after a draw gesture has
    ended with a line in progress, undo leaves the committed lines as they
    were before the gesture.  On an empty collection undo changes
    nothing. *)
Theorem undo_takes_back_commit (s s' : State) (cl : Line) :
  isDrawing s = true ->
  currentLine s = Some cl ->
  handleEndDrawing s = Some s' ->
  lines (handleUndo s') = lines s
  /\ (lines s = [] -> handleUndo s = s).
Proof.
  intros Hd Hc He. split.
  - assert (Hl : exists l, lines s' = lines s ++ [l]).
    { destruct (Nat.le_gt_cases 2 (List.length (Line.points cl)))
        as [H | H].
      - destruct (handleEndDrawing_long s cl Hd Hc H) as (m & _ & E).
        rewrite E in He. injection He as <-. eexists. reflexivity.
      - rewrite (handleEndDrawing_short s cl Hd Hc H) in He.
        injection He as <-. eexists. reflexivity. }
    destruct Hl as [l Hl]. unfold handleUndo. rewrite Hl.
    rewrite length_app. simpl.
    destruct (Nat.ltb_spec 0 (List.length (lines s) + 1)); [| lia].
    simpl. apply removelast_last.
  - intros Hempty. unfold handleUndo. rewrite Hempty. reflexivity.
Qed.

Lemma undo_takes_back_commit_witness :
  exists s',
    handleEndDrawing drawingState = Some s'
    /\ lines (handleUndo s') = lines drawingState.
Proof.
  eexists. split; [reflexivity |].
  eapply (undo_takes_back_commit drawingState _ twoPointLine);
    reflexivity.
Defined.

Lemma map_id_when_unchanged (f : Line -> Line) (ls : list Line) :
  (forall l, In l ls -> f l = l) -> map f ls = ls.
Proof.
  intros H. induction ls as [| l ls IH]; simpl; [reflexivity |].
  rewrite (H l) by (left; reflexivity). f_equal.
  apply IH. intros l' Hl'. apply H. now right.
Qed.

(** X11.  Updating the selected line keeps the number, the order, the
    identifiers, the points and the label positions of the committed lines;
    the lines with the identifier of the selected line take colour, opacity
    (a hundredth of the panel value), label, rotation and thickness from the
    panel, the others are untouched; selection and label editing end. *)
Theorem update_keeps_geometry (t : ToolState) (sel : Line) :
  selectedLine (core t) = Some sel ->
  selectedLine (core (handleUpdateSelectedLine t)) = None
  /\ editingLabel (handleUpdateSelectedLine t) = false
  /\ map Line.id (lines (core (handleUpdateSelectedLine t)))
     = map Line.id (lines (core t))
  /\ map Line.points (lines (core (handleUpdateSelectedLine t)))
     = map Line.points (lines (core t))
  /\ map Line.labelPosition (lines (core (handleUpdateSelectedLine t)))
     = map Line.labelPosition (lines (core t))
  /\ (forall line, In line (lines (core (handleUpdateSelectedLine t))) ->
        Line.id line = Line.id sel ->
        Line.color line = color (core t)
        /\ Line.opacity line = opacity (core t) / 100
        /\ Line.label line = label (core t)
        /\ Line.labelRotation line = labelRotation (core t)
        /\ Line.thickness line = thickness (core t))
  /\ (forall line, In line (lines (core (handleUpdateSelectedLine t))) ->
        Line.id line <> Line.id sel -> In line (lines (core t))).
Proof.
  intros Hsel. unfold handleUpdateSelectedLine. rewrite Hsel. simpl.
  split; [reflexivity |]. split; [reflexivity |].
  split; [| split; [| split; [| split]]].
  - rewrite map_map. apply map_ext. intros l.
    destruct (String.eqb (Line.id l) (Line.id sel)); reflexivity.
  - rewrite map_map. apply map_ext. intros l.
    destruct (String.eqb (Line.id l) (Line.id sel)); reflexivity.
  - rewrite map_map. apply map_ext. intros l.
    destruct (String.eqb (Line.id l) (Line.id sel)); reflexivity.
  - intros line Hin Hid. apply in_map_iff in Hin.
    destruct Hin as (l0 & E & _).
    destruct (String.eqb (Line.id l0) (Line.id sel)) eqn:Eid.
    + subst line. simpl. repeat split.
    + subst line. apply String.eqb_neq in Eid. contradiction.
  - intros line Hin Hid. apply in_map_iff in Hin.
    destruct Hin as (l0 & E & Hin0).
    destruct (String.eqb (Line.id l0) (Line.id sel)) eqn:Eid.
    + subst line. simpl in Hid. apply String.eqb_eq in Eid. contradiction.
    + now subst line.
Qed.

Lemma update_keeps_geometry_witness :
  selectedLine
    (core (handleUpdateSelectedLine (mkToolState selectedState None true)))
  = None
  /\ map Line.points
       (lines (core (handleUpdateSelectedLine
                       (mkToolState selectedState None true))))
     = map Line.points (lines selectedState).
Proof.
  destruct (update_keeps_geometry (mkToolState selectedState None true)
              twoPointLine eq_refl) as (H1 & _ & _ & H4 & _).
  split; [exact H1 | exact H4].
Defined.

(** X12.  Selecting a committed line and updating it at once, with the
    panel untouched in between, changes no committed line, provided the
    identifiers are distinct and the thickness of the line is one of the
    tool's. *)
Theorem select_then_update_is_identity (t : ToolState) (line : Line) :
  In line (lines (core t)) ->
  NoDup (map Line.id (lines (core t))) ->
  LineThickness (Line.thickness line) ->
  lines (core (handleUpdateSelectedLine
                 (mkToolState (handleSelectLine line (core t))
                              (backgroundImage t) (editingLabel t))))
  = lines (core t).
Proof.
  intros Hin Hnd Ht. unfold handleUpdateSelectedLine. simpl.
  apply map_id_when_unchanged. intros l Hl.
  destruct (String.eqb (Line.id l) (Line.id line)) eqn:E; [| reflexivity].
  apply String.eqb_eq in E.
  assert (l = line).
  { clear Ht. revert Hin Hl Hnd. generalize (lines (core t)) as ls.
    induction ls as [| a ls IH]; simpl; [intros [] |].
    intros Hin Hl Hnd. inversion Hnd as [| ? ? Hnot Hnd']; subst.
    destruct Hin as [-> | Hin], Hl as [-> | Hl].
    - reflexivity.
    - exfalso. apply Hnot. rewrite <- E. now apply in_map.
    - exfalso. apply Hnot. rewrite E. now apply in_map.
    - now apply IH. }
  subst l.
  rewrite (orDefault_nonzero (Line.thickness line))
    by (destruct Ht as [-> | [-> | ->]]; lra).
  assert (E0 : orDefault (Line.labelRotation line) 0
               = Line.labelRotation line).
  { unfold orDefault. unfold Reqb.
    destruct (Req_dec_T (Line.labelRotation line) 0) as [-> | _];
      reflexivity. }
  rewrite E0.
  replace (Line.opacity line * 100 / 100) with (Line.opacity line)
    by (field).
  apply line_eta.
Qed.

Lemma select_then_update_is_identity_witness :
  lines (core (handleUpdateSelectedLine
                 (mkToolState (handleSelectLine twoPointLine oneLineState)
                              None false)))
  = lines oneLineState.
Proof.
  apply (select_then_update_is_identity
           (mkToolState oneLineState None false) twoPointLine).
  - left. reflexivity.
  - simpl. constructor; [intros [] | constructor].
  - right. left. reflexivity.
Defined.

(** ** Zoom buttons and wheel *)



Lemma handleWheel_state (e : WheelEvent) (s : State) :
  fst (handleWheel e s)
  = setPanOffset
      (mkPoint
         (x (panOffset s)
          - (if Rltb 0 (deltaY e) then -1 else 1)
            * ((wheelClientX e - x (canvasRect s)
                - width (canvasSize s) / 2) * (5 / 100)))
         (y (panOffset s)
          - (if Rltb 0 (deltaY e) then -1 else 1)
            * ((wheelClientY e - y (canvasRect s)
                - height (canvasSize s) / 2) * (5 / 100))))
      s.
Proof.
  unfold handleWheel, wheelDelta. simpl.
  destruct (Rltb 0 (deltaY e)).
  - rewrite (Rltb_false 0 (- (1 / 10))) by lra.
    unfold setPanOffset. f_equal. f_equal; ring.
  - rewrite (Rltb_true 0 (1 / 10)) by lra.
    unfold setPanOffset. f_equal. f_equal; ring.
Qed.



(** ** What the pointer handlers keep *)

Section Frames.

Variable measureText : string -> R.

Lemma labelScreenPosition_total (s : State) (line : Line) :
  hasPoints line -> exists anchor, labelScreenPosition s line = Some anchor.
Proof.
  intros Hp. unfold labelScreenPosition.
  destruct (Line.labelPosition line); [eexists; reflexivity |].
  destruct (midIndex_in_range (Line.points line)) as [m Hm].
  - unfold hasPoints in Hp. destruct (Line.points line); simpl;
      [contradiction | lia].
  - rewrite Hm. eexists. reflexivity.
Qed.

Lemma isPointNearLabel_total (s : State) (c : Point) (line : Line) :
  hasPoints line ->
  exists near, isPointNearLabel measureText s c line = Some near.
Proof.
  intros Hp. unfold isPointNearLabel.
  destruct (Line.hasLabel line); simpl; [| eexists; reflexivity].
  destruct (labelScreenPosition_total s line Hp) as [a Ha]. rewrite Ha.
  eexists. reflexivity.
Qed.

Lemma isPointNearRotationControl_total (s : State) (c : Point)
    (line : Line) :
  hasPoints line ->
  exists near, isPointNearRotationControl measureText s c line = Some near.
Proof.
  intros Hp. unfold isPointNearRotationControl.
  destruct (Line.hasLabel line); simpl; [| eexists; reflexivity].
  destruct (labelScreenPosition_total s line Hp) as [a Ha]. rewrite Ha.
  eexists. reflexivity.
Qed.

Lemma findLabelAt_total (s : State) (c : Point) (ls : list Line) :
  (forall l, In l ls -> hasPoints l) ->
  exists r,
    findLabelAt measureText s c ls = Some r
    /\ (forall l, r = Some l -> In l ls).
Proof.
  induction ls as [| l ls IH]; intros H; simpl.
  - exists None. split; [reflexivity | discriminate].
  - destruct (isPointNearLabel_total s c l (H l (or_introl eq_refl)))
      as [near Hn].
    assert (E : (if Line.hasLabel l
                 then isPointNearLabel measureText s c l else Some false)
                = Some (if Line.hasLabel l then near else false))
      by (destruct (Line.hasLabel l); [exact Hn | reflexivity]).
    rewrite E. simpl.
    destruct (if Line.hasLabel l then near else false).
    + exists (Some l). split; [reflexivity |].
      intros l' Hl'. injection Hl' as <-. now left.
    + destruct IH as (r & Hr & Hin);
        [intros l' Hl'; apply H; now right |].
      exists r. split; [exact Hr |]. intros l' Hl'. right. now apply Hin.
Qed.

Lemma findHoveredAt_total (s : State) (c : Point) (ls : list Line) :
  (forall l, In l ls -> hasPoints l) ->
  exists r, findHoveredAt measureText s c ls = Some r.
Proof.
  induction ls as [| l ls IH]; intros H; simpl.
  - eexists. reflexivity.
  - assert (IH' : exists r, findHoveredAt measureText s c ls = Some r)
      by (apply IH; intros l' Hl'; apply H; now right).
    destruct (Line.hasLabel l); [| exact IH'].
    destruct (isPointNearLabel_total s c l (H l (or_introl eq_refl)))
      as [near Hn].
    destruct (isPointNearRotationControl_total s c l
                (H l (or_introl eq_refl))) as [nearC Hc].
    rewrite Hn. simpl. destruct near; simpl.
    + eexists. reflexivity.
    + rewrite Hc. simpl. destruct nearC; [eexists; reflexivity | exact IH'].
Qed.

Lemma hoveredSelected_selected (s : State) (sel : Line) :
  hoveredSelected s = Some sel -> selectedLine s = Some sel.
Proof.
  unfold hoveredSelected.
  destruct (selectedLine s) as [l |]; [| discriminate].
  destruct (hoveredLabel s) as [h |]; [| discriminate].
  destruct (String.eqb h (Line.id l)); [| discriminate].
  intros H. exact H.
Qed.

Lemma startOnSelected_total (s0 s : State) (c : Point) :
  (forall sel, selectedLine s0 = Some sel -> hasPoints sel) ->
  exists r,
    startOnSelected measureText s0 s c = Some r
    /\ (forall s', r = Some s' ->
          lines s' = lines s /\ selectedLine s' = selectedLine s
          /\ currentLine s' = currentLine s).
Proof.
  intros H. unfold startOnSelected.
  destruct (hoveredSelected s0) as [sel |] eqn:Hh.
  - assert (Hp : hasPoints sel)
      by (apply H; now apply hoveredSelected_selected).
    destruct (isPointNearRotationControl_total s0 c sel Hp) as [nc Hc].
    destruct (isPointNearLabel_total s0 c sel Hp) as [nl Hl].
    destruct (labelScreenPosition_total s0 sel Hp) as [a Ha].
    rewrite Hc. simpl. destruct nc.
    + rewrite Ha. simpl. eexists. split; [reflexivity |].
      intros s' E. injection E as <-. simpl. repeat split.
    + rewrite Hl. simpl. destruct nl.
      * eexists. split; [reflexivity |].
        intros s' E. injection E as <-. simpl. repeat split.
      * exists None. split; [reflexivity | discriminate].
  - exists None. split; [reflexivity | discriminate].
Qed.

Lemma handleMouseMove_cases (e : MouseEvent) (s s' : State) :
  handleMouseMove measureText e s = Some s' ->
  (isPanning s = true
   /\ s' = setLastPanPoint (mkPoint (clientX e) (clientY e))
             (setPanOffset
                (mkPoint (x (panOffset s) + (clientX e - x (lastPanPoint s)))
                         (y (panOffset s) + (clientY e - y (lastPanPoint s))))
                (setCursorPosition (Some (getCanvasCoordinates e s)) s)))
  \/ (isPanning s = false
      /\ exists angle,
           s' = handleRotateLabel angle
                  (setCursorPosition (Some (getCanvasCoordinates e s)) s))
  \/ (isPanning s = false
      /\ exists sel,
           selectedLine s = Some sel
           /\ s' = handleUpdateLabelPosition (Line.id sel)
                     (getImageCoordinates s (getCanvasCoordinates e s))
                     (setCursorPosition (Some (getCanvasCoordinates e s)) s))
  \/ (isPanning s = false
      /\ exists hovered,
           (interactionMode s <> draw
            /\ s' = setHoveredLabel hovered
                      (setCursorPosition (Some (getCanvasCoordinates e s)) s))
           \/ (interactionMode s = draw
               /\ s' = handleDrawing
                         (x (getImageCoordinates s (getCanvasCoordinates e s)))
                         (y (getImageCoordinates s (getCanvasCoordinates e s)))
                         (setHoveredLabel hovered
                            (setCursorPosition
                               (Some (getCanvasCoordinates e s)) s)))).
Proof.
  unfold handleMouseMove. destruct (isPanning s) eqn:Hp.
  - intros H. injection H as <-. left. split; reflexivity.
  - right. destruct (rotating s) as [center |].
    + injection H as <-. left. split; [reflexivity |].
      eexists. reflexivity.
    + right. destruct (draggingLabel s) as [sel |] eqn:Hd.
      * injection H as <-. left. split; [reflexivity |].
        exists sel. split; [| reflexivity].
        unfold draggingLabel in Hd.
        destruct (Mode_eqb (interactionMode s) drag && isDraggingLabel s);
          [exact Hd | discriminate].
      * right. split; [reflexivity |].
        destruct (findHoveredAt measureText s (getCanvasCoordinates e s)
                    (lines s)) as [hovered |]; [| discriminate].
        simpl in H. exists (option_map Line.id hovered).
        destruct (interactionMode s) eqn:Hm; simpl in H;
          injection H as <-;
          first [ right; split; reflexivity
                | left; split; [discriminate | reflexivity] ].
Qed.

(** X15.  A pointer-move never changes the interaction mode, the selection,
    the zoom level, the sizes and the base scale, the panning, dragging and
    drawing flags or the rotation center, and it keeps the number, the
    order, the identifiers and the points of the committed lines. *)
Theorem pointer_move_frame (e : MouseEvent) (s s' : State) :
  handleMouseMove measureText e s = Some s' ->
  interactionMode s' = interactionMode s
  /\ selectedLine s' = selectedLine s
  /\ zoomLevel s' = zoomLevel s
  /\ canvasSize s' = canvasSize s
  /\ imageSize s' = imageSize s
  /\ scale s' = scale s
  /\ isPanning s' = isPanning s
  /\ isDraggingLabel s' = isDraggingLabel s
  /\ isDrawing s' = isDrawing s
  /\ rotationCenter s' = rotationCenter s
  /\ map Line.id (lines s') = map Line.id (lines s)
  /\ map Line.points (lines s') = map Line.points (lines s).
Proof.
  intros H. apply handleMouseMove_cases in H.
  destruct H as [[_ ->] | [[_ [a ->]] | [[_ (sel & _ & ->)] | [_ [h H]]]]].
  - simpl. repeat split.
  - unfold handleRotateLabel. simpl.
    destruct (selectedLine s) as [sel |] eqn:Hsel; simpl; repeat split;
      try exact Hsel;
      rewrite map_map; apply map_ext; intros l;
      destruct (String.eqb (Line.id l) (Line.id sel)); reflexivity.
  - unfold handleUpdateLabelPosition. simpl. repeat split;
      rewrite map_map; apply map_ext; intros l;
      destruct (String.eqb (Line.id l) (Line.id sel)); reflexivity.
  - destruct H as [[_ ->] | [_ ->]].
    + simpl. repeat split.
    + unfold handleDrawing. simpl.
      destruct (isDrawing s) eqn:Hd; [| simpl; repeat split; exact Hd].
      destruct (currentLine s); simpl; repeat split; exact Hd.
Qed.

End Frames.

Lemma pointer_move_frame_witness :
  exists s',
    handleMouseMove fixedWidth (pointerAt 200 200) draggingState = Some s'
    /\ interactionMode s' = interactionMode draggingState
    /\ map Line.points (lines s') = map Line.points (lines draggingState).
Proof.
  eexists. split; [reflexivity |].
  destruct (pointer_move_frame fixedWidth (pointerAt 200 200) draggingState
              _ eq_refl) as (H1 & _ & _ & _ & _ & _ & _ & _ & _ & _ & _ & H12).
  split; [exact H1 | exact H12].
Defined.

(** ** No handler throws *)

Section Safety.

Variable measureText : string -> R.

Lemma wellFormed_same (s s' : State) :
  lines s' = lines s -> selectedLine s' = selectedLine s ->
  currentLine s' = currentLine s -> wellFormed s -> wellFormed s'.
Proof.
  intros E1 E2 E3 H. unfold wellFormed. rewrite E1, E2, E3. exact H.
Qed.

Lemma wellFormed_initialState : wellFormed initialState.
Proof.
  unfold wellFormed. simpl. repeat split; intros l H;
    [contradiction | discriminate | discriminate].
Qed.

Lemma in_removelast (A : Type) (ls : list A) (a : A) :
  In a (removelast ls) -> In a ls.
Proof.
  induction ls as [| b ls IH]; simpl; [trivial |].
  destruct ls as [| c ls]; [intros [] |].
  intros [-> | H]; [now left | right; now apply IH].
Qed.

Lemma handleMouseDown_wellFormed (now : string) (e : MouseEvent)
    (s : State) :
  wellFormed s ->
  exists s', handleMouseDown measureText now e s = Some s' /\ wellFormed s'.
Proof.
  intros Hwf. pose proof Hwf as (Hl & Hs & Hc). unfold handleMouseDown.
  destruct (isPanTrigger e).
  - eexists. split; [reflexivity |].
    apply (wellFormed_same s); [reflexivity .. | exact Hwf].
  - destruct (startOnSelected_total measureText s
                (setCursorPosition (Some (getCanvasCoordinates e s)) s)
                (getCanvasCoordinates e s) Hs) as (r & Hr & Hkeep).
    rewrite Hr. simpl. destruct r as [s1 |].
    + exists s1. split; [reflexivity |].
      destruct (Hkeep s1 eq_refl) as (E1 & E2 & E3).
      apply (wellFormed_same s); [exact E1 | exact E2 | exact E3 | exact Hwf].
    + destruct (findLabelAt_total measureText s (getCanvasCoordinates e s)
                  (lines s) Hl) as (r2 & Hr2 & Hin).
      rewrite Hr2. simpl. destruct r2 as [line |].
      * eexists. split; [reflexivity |]. unfold wellFormed. simpl.
        split; [exact Hl |]. split; [| exact Hc].
        intros l0 E. injection E as <-. apply Hl. now apply Hin.
      * destruct (findLineAtPoint s
                    (getImageCoordinates s (getCanvasCoordinates e s)))
          as [clicked |] eqn:Hf.
        -- eexists. split; [reflexivity |]. unfold wellFormed. simpl.
           split; [exact Hl |]. split; [| exact Hc].
           intros l0 E. injection E as <-. apply Hl.
           unfold findLineAtPoint in Hf.
           now apply findLineIn_some in Hf.
        -- eexists. split; [reflexivity |].
           unfold handleStartDrawing. simpl.
           destruct (selectedLine s) as [sel |] eqn:Hsel;
             unfold wellFormed; simpl.
           ++ split; [exact Hl |]. split; [discriminate | exact Hc].
           ++ split; [exact Hl |]. split; [now rewrite Hsel |].
              intros l0 E. injection E as <-. unfold hasPoints. simpl.
              discriminate.
Qed.

Lemma handleMouseMove_wellFormed (e : MouseEvent) (s : State) :
  wellFormed s ->
  exists s', handleMouseMove measureText e s = Some s' /\ wellFormed s'.
Proof.
  intros Hwf. pose proof Hwf as (Hl & Hs & Hc).
  assert (Htotal : exists s', handleMouseMove measureText e s = Some s').
  { unfold handleMouseMove. destruct (isPanning s); [eexists; reflexivity |].
    destruct (rotating s); [eexists; reflexivity |].
    destruct (draggingLabel s); [eexists; reflexivity |].
    destruct (findHoveredAt_total measureText s (getCanvasCoordinates e s)
                (lines s) Hl) as [r Hr].
    rewrite Hr. simpl.
    destruct (Mode_eqb (interactionMode s) draw); eexists; reflexivity. }
  destruct Htotal as [s' E]. exists s'. split; [exact E |].
  apply handleMouseMove_cases in E.
  destruct E as [[_ ->] | [[_ [a ->]] | [[_ (sel & _ & ->)] | [_ [h H]]]]].
  - apply (wellFormed_same s); [reflexivity .. | exact Hwf].
  - unfold handleRotateLabel. simpl.
    destruct (selectedLine s) as [sel |] eqn:Hsel.
    + unfold wellFormed. simpl. split; [| split; [now rewrite Hsel | exact Hc]].
      intros l0 Hin. apply in_map_iff in Hin. destruct Hin as (l1 & <- & Hin).
      destruct (String.eqb (Line.id l1) (Line.id sel));
        [unfold hasPoints; simpl |]; now apply Hl.
    + apply (wellFormed_same s); [reflexivity | | reflexivity | exact Hwf].
      simpl. now rewrite Hsel.
  - unfold handleUpdateLabelPosition, wellFormed. simpl.
    split; [| split; [exact Hs | exact Hc]].
    intros l0 Hin. apply in_map_iff in Hin. destruct Hin as (l1 & <- & Hin).
    destruct (String.eqb (Line.id l1) (Line.id sel));
      [unfold hasPoints; simpl |]; now apply Hl.
  - destruct H as [[_ ->] | [_ ->]].
    + apply (wellFormed_same s); [reflexivity .. | exact Hwf].
    + unfold handleDrawing. simpl.
      destruct (isDrawing s);
        [| apply (wellFormed_same s); [reflexivity .. | exact Hwf]].
      destruct (currentLine s) as [cl |] eqn:Hcl.
      * unfold wellFormed. simpl. split; [exact Hl |]. split; [exact Hs |].
        intros l0 E0. injection E0 as <-. unfold hasPoints. simpl.
        intros Happ. apply app_eq_nil in Happ. destruct Happ as [_ Hnil].
        discriminate Hnil.
      * apply (wellFormed_same s); [reflexivity .. | exact Hwf].
Qed.

Lemma handleEndDrawing_wellFormed (s : State) :
  wellFormed s ->
  exists s', handleEndDrawing s = Some s' /\ wellFormed s'.
Proof.
  intros Hwf. pose proof Hwf as (Hl & Hs & Hc).
  destruct (isDrawing s) eqn:Hd;
    [| exists s; split; [unfold handleEndDrawing; now rewrite Hd | exact Hwf]].
  destruct (currentLine s) as [cl |] eqn:Hcl;
    [| exists s; split;
       [unfold handleEndDrawing; now rewrite Hd, Hcl | exact Hwf]].
  assert (Hp : hasPoints cl) by now apply Hc.
  destruct (Nat.le_gt_cases 2 (List.length (Line.points cl))) as [H | H].
  - destruct (handleEndDrawing_long s cl Hd Hcl H) as (m & _ & E).
    rewrite E. eexists. split; [reflexivity |]. unfold wellFormed. simpl.
    split; [| split; [exact Hs | discriminate]].
    intros l0 Hin. apply in_app_or in Hin.
    destruct Hin as [Hin | [<- | []]]; [now apply Hl | exact Hp].
  - rewrite (handleEndDrawing_short s cl Hd Hcl H).
    eexists. split; [reflexivity |]. unfold wellFormed. simpl.
    split; [| split; [exact Hs | discriminate]].
    intros l0 Hin. apply in_app_or in Hin.
    destruct Hin as [Hin | [<- | []]]; [now apply Hl | exact Hp].
Qed.

Lemma handleMouseUp_wellFormed (s : State) :
  wellFormed s ->
  exists s', handleMouseUp s = Some s' /\ wellFormed s'.
Proof.
  intros Hwf. unfold handleMouseUp.
  set (s3 := if isDraggingLabel s then _ else _).
  assert (Hwf3 : wellFormed s3).
  { apply (wellFormed_same s); [| | | exact Hwf]; subst s3;
      destruct (isDraggingLabel s), (isPanning s),
        (Mode_eqb (interactionMode s) rotate); reflexivity. }
  destruct (Mode_eqb (interactionMode s) draw).
  - destruct (handleEndDrawing_wellFormed s3 Hwf3) as (s4 & E4 & Hwf4).
    rewrite E4. simpl. eexists. split; [reflexivity |].
    apply (wellFormed_same s4); [reflexivity .. | exact Hwf4].
  - simpl. eexists. split; [reflexivity |].
    apply (wellFormed_same s3); [reflexivity .. | exact Hwf3].
Qed.

Lemma handleEvent_wellFormed (ev : UserEvent) (s : State) :
  wellFormed s ->
  exists s', handleEvent measureText ev s = Some s' /\ wellFormed s'.
Proof.
  intros Hwf. pose proof Hwf as (Hl & Hs & Hc).
  destruct ev; cbn [handleEvent].
  - now apply handleMouseDown_wellFormed.
  - now apply handleMouseMove_wellFormed.
  - now apply handleMouseUp_wellFormed.
  - now apply handleMouseUp_wellFormed.
  - eexists. split; [reflexivity |]. rewrite handleWheel_state.
    apply (wellFormed_same s); [reflexivity .. | exact Hwf].
  - eexists. split; [reflexivity |]. unfold handleUndo.
    destruct (0 <? List.length (lines s))%nat; [| exact Hwf].
    unfold wellFormed. simpl. split; [| split; [exact Hs | exact Hc]].
    intros l0 Hin. apply Hl. now apply in_removelast.
  - eexists. split; [reflexivity |]. unfold handleClearAll, wellFormed.
    simpl. split; [intros l0 [] |]. split; [discriminate | exact Hc].
  - eexists. split; [reflexivity |]. unfold handleDeleteLine.
    destruct (selectedLine s); [| exact Hwf].
    unfold wellFormed. simpl. split; [| split; [discriminate | exact Hc]].
    intros l0 Hin. apply filter_In in Hin. now apply Hl.
  - eexists. split; [reflexivity |].
    apply (wellFormed_same s); [reflexivity .. | exact Hwf].
  - eexists. split; [reflexivity |].
    apply (wellFormed_same s); [reflexivity .. | exact Hwf].
  - eexists. split; [reflexivity |].
    apply (wellFormed_same s); [reflexivity .. | exact Hwf].
  - eexists. split; [reflexivity |].
    apply (wellFormed_same s); [reflexivity .. | exact Hwf].
Qed.

(** X16.  No handler throws in a session: from a state in which every
    committed line, the selected line and the line in progress have at
    least one point, and so from the initial state, every sequence of
    pointer, wheel and button events is handled to the end, and the state
    reached has the same property. *)
Theorem session_never_throws (evs : list UserEvent) (s : State) :
  wellFormed s ->
  exists s', handleEvents measureText evs s = Some s' /\ wellFormed s'.
Proof.
  revert s. induction evs as [| ev evs IH]; intros s Hwf; simpl.
  - exists s. split; [reflexivity | exact Hwf].
  - destruct (handleEvent_wellFormed ev s Hwf) as (s1 & E1 & Hwf1).
    rewrite E1. simpl. now apply IH.
Qed.

End Safety.

Lemma session_never_throws_witness :
  exists s',
    handleEvents fixedWidth
      [MouseDown "1" (leftClickAt 200 200); MouseMove (pointerAt 300 250);
       MouseUp; Undo; Wheel (mkWheelEvent 100 10 10)]
      initialState = Some s'
    /\ wellFormed s'.
Proof.
  apply (session_never_throws fixedWidth _ initialState).
  apply wellFormed_initialState.
Defined.

(** A committed line with a label and neither points nor label position
    makes the hover test of every pointer-move throw. *)
Lemma pointless_labelled_line_throws (mt : string -> R) (e : MouseEvent) :
  handleMouseMove mt e
    (setLines [Line.mk "1" [] "#FF0000" 1 "A" 0 None 3] loadedState) = None.
Proof. reflexivity. Qed.

(** ** Whole gestures *)

Section Gestures.

Variable measureText : string -> R.

Lemma last_cons_default (A : Type) (l : list A) (a d : A) :
  last (a :: l) d = last l a.
Proof.
  revert a d. induction l as [| b l IH]; intros a d; [reflexivity |].
  change (last (a :: b :: l) d) with (last (b :: l) d).
  rewrite (IH b d). symmetry. apply IH.
Qed.

Lemma panning_moves (es : list MouseEvent) (s : State) :
  isPanning s = true ->
  exists s',
    handleMouseMoves measureText es s = Some s'
    /\ isPanning s' = true
    /\ lastPanPoint s' = last (map clientPoint es) (lastPanPoint s)
    /\ x (panOffset s') - x (lastPanPoint s')
       = x (panOffset s) - x (lastPanPoint s)
    /\ y (panOffset s') - y (lastPanPoint s')
       = y (panOffset s) - y (lastPanPoint s)
    /\ lines s' = lines s /\ currentLine s' = currentLine s
    /\ selectedLine s' = selectedLine s /\ zoomLevel s' = zoomLevel s
    /\ interactionMode s' = interactionMode s
    /\ isDrawing s' = isDrawing s.
Proof.
  revert s. induction es as [| e es IH]; intros s Hp.
  - exists s. simpl. repeat split; assumption.
  - simpl. unfold handleMouseMove at 1. rewrite Hp. simpl.
    match goal with
    | |- exists s', handleMouseMoves _ _ ?s1 = _ /\ _ =>
        destruct (IH s1 Hp)
          as (s' & E & P & L & X & Y & H1 & H2 & H3 & H4 & H5 & H6)
    end.
    exists s'. split; [exact E |]. split; [exact P |].
    simpl in *. split.
    { rewrite L. fold (clientPoint e). symmetry.
      apply last_cons_default. }
    rewrite X, Y. repeat split; try assumption; ring.
Qed.


Lemma getImageCoordinates_sameViewport (s s' : State) (e : MouseEvent) :
  sameViewport s s' ->
  getImageCoordinates s' (getCanvasCoordinates e s')
  = getImageCoordinates s (getCanvasCoordinates e s).
Proof.
  intros (E1 & E2 & E3 & E4 & E5 & E6).
  unfold getImageCoordinates, withinImageBounds, getCanvasCoordinates,
    imageX, imageY, effectiveScale.
  now rewrite E1, E2, E3, E4, E5, E6.
Qed.

Lemma drawing_moves (es : list MouseEvent) (s : State) (cl : Line) :
  (forall l, In l (lines s) -> hasPoints l) ->
  isPanning s = false -> interactionMode s = draw ->
  isDrawing s = true -> currentLine s = Some cl ->
  exists s',
    handleMouseMoves measureText es s = Some s'
    /\ currentLine s' =
         Some (Line.setPoints
                 (Line.points cl ++
                    map (fun e =>
                           getImageCoordinates s (getCanvasCoordinates e s))
                        es) cl)
    /\ lines s' = lines s /\ selectedLine s' = selectedLine s
    /\ interactionMode s' = draw /\ isDrawing s' = true
    /\ sameViewport s s'.
Proof.
  revert s cl. induction es as [| e es IH]; intros s cl Hl Hp Hm Hd Hc.
  - exists s. simpl. rewrite app_nil_r. split; [reflexivity |].
    split; [rewrite Hc; destruct cl; reflexivity |].
    unfold sameViewport. repeat split; assumption.
  - simpl.
    destruct (findHoveredAt_total measureText s (getCanvasCoordinates e s)
                (lines s) Hl) as [h Hh].
    assert (E1 : handleMouseMove measureText e s
                 = Some (handleDrawing
                           (x (getImageCoordinates s
                                 (getCanvasCoordinates e s)))
                           (y (getImageCoordinates s
                                 (getCanvasCoordinates e s)))
                           (setHoveredLabel (option_map Line.id h)
                              (setCursorPosition
                                 (Some (getCanvasCoordinates e s)) s)))).
    { unfold handleMouseMove, rotating, draggingLabel.
      rewrite Hp, Hm, Hh. reflexivity. }
    rewrite E1. simpl.
    unfold handleDrawing at 1. simpl. rewrite Hd, Hc. rewrite point_eta.
    set (p := getImageCoordinates s (getCanvasCoordinates e s)).
    set (s1 := setCurrentLine _ _).
    assert (V1 : sameViewport s s1)
      by (unfold sameViewport, s1; simpl; repeat split).
    destruct (IH s1 (Line.setPoints (Line.points cl ++ [p]) cl))
      as (s' & E & C & L & S & M & D & V);
      [ exact Hl | exact Hp | exact Hm | exact Hd | reflexivity | ].
    exists s'. split; [exact E |]. split.
    { rewrite C.
      rewrite (map_ext
                 (fun e0 => getImageCoordinates s1 (getCanvasCoordinates e0 s1))
                 (fun e0 => getImageCoordinates s (getCanvasCoordinates e0 s)))
        by (intros e0; now apply getImageCoordinates_sameViewport).
      unfold Line.setPoints. simpl. rewrite <- app_assoc. reflexivity. }
    split; [exact L |]. split; [exact S |].
    split; [exact M |]. split; [exact D |].
    destruct V as (W1 & W2 & W3 & W4 & W5 & W6).
    destruct V1 as (U1 & U2 & U3 & U4 & U5 & U6).
    unfold sameViewport. repeat split; congruence.
Qed.

Lemma handleMouseUp_draw (s : State) (cl : Line) :
  interactionMode s = draw -> isDrawing s = true ->
  currentLine s = Some cl ->
  exists s' committed,
    handleMouseUp s = Some s'
    /\ lines s' = lines s ++ [committed]
    /\ Line.points committed = Line.points cl
    /\ Line.id committed = Line.id cl
    /\ currentLine s' = None /\ isDrawing s' = false
    /\ interactionMode s' = draw.
Proof.
  intros Hm Hd Hc. unfold handleMouseUp. rewrite Hm. simpl.
  set (s3 := if isDraggingLabel s then _ else _).
  assert (Hd3 : isDrawing s3 = true)
    by (subst s3; destruct (isDraggingLabel s), (isPanning s); exact Hd).
  assert (Hc3 : currentLine s3 = Some cl)
    by (subst s3; destruct (isDraggingLabel s), (isPanning s); exact Hc).
  assert (Hl3 : lines s3 = lines s)
    by (subst s3; destruct (isDraggingLabel s), (isPanning s); reflexivity).
  destruct (Nat.le_gt_cases 2 (List.length (Line.points cl))) as [H | H].
  - destruct (handleEndDrawing_long s3 cl Hd3 Hc3 H) as (m & _ & E3).
    rewrite E3. simpl. eexists. eexists. split; [reflexivity |].
    simpl. rewrite Hl3. repeat split.
  - rewrite (handleEndDrawing_short s3 cl Hd3 Hc3 H). simpl.
    eexists. exists cl. split; [reflexivity |].
    simpl. rewrite Hl3. repeat split.
Qed.

(** X18.  Once a line is in progress in draw mode, every pointer-move
    records one point, the image coordinates of the pointer, at the end of
    the line, in the order of the moves and with nothing dropped, and the
    release commits one line with all of them after the ones it had; the
    committed lines before it are kept. *)
Theorem draw_gesture_records_every_move (es : list MouseEvent) (s : State)
    (cl : Line) :
  (forall l, In l (lines s) -> hasPoints l) ->
  isPanning s = false ->
  interactionMode s = draw ->
  isDrawing s = true ->
  currentLine s = Some cl ->
  exists s1 s2 committed,
    handleMouseMoves measureText es s = Some s1
    /\ handleMouseUp s1 = Some s2
    /\ lines s2 = lines s ++ [committed]
    /\ Line.id committed = Line.id cl
    /\ Line.points committed =
         Line.points cl ++
           map (fun e => getImageCoordinates s (getCanvasCoordinates e s)) es
    /\ currentLine s2 = None
    /\ isDrawing s2 = false
    /\ interactionMode s2 = draw.
Proof.
  intros Hl Hp Hm Hd Hc.
  destruct (drawing_moves es s cl Hl Hp Hm Hd Hc)
    as (s1 & E1 & C1 & L1 & _ & M1 & D1 & _).
  destruct (handleMouseUp_draw s1 _ M1 D1 C1)
    as (s2 & committed & E2 & L2 & P2 & I2 & C2 & D2 & M2).
  exists s1, s2, committed. split; [exact E1 |]. split; [exact E2 |].
  rewrite L2, L1, I2, P2. simpl. repeat split; assumption.
Qed.

End Gestures.


Lemma draw_gesture_records_every_move_witness :
  exists s1 s2 committed,
    handleMouseMoves fixedWidth [pointerAt 200 200; pointerAt 900 100]
      drawingState = Some s1
    /\ handleMouseUp s1 = Some s2
    /\ lines s2 = lines drawingState ++ [committed]
    /\ List.length (Line.points committed) = 4%nat.
Proof.
  destruct (draw_gesture_records_every_move fixedWidth
              [pointerAt 200 200; pointerAt 900 100] drawingState
              twoPointLine)
    as (s1 & s2 & committed & E1 & E2 & L & _ & P & _);
    try reflexivity.
  - intros l [].
  - exists s1, s2, committed. repeat split; try assumption.
    rewrite P. reflexivity.
Defined.

(** ** Selecting by a click on a stroke *)

Lemma orDefault_zero (a : R) : orDefault a 0 = a.
Proof.
  unfold orDefault, Reqb. destruct (Req_dec_T a 0) as [-> | _]; reflexivity.
Qed.

(** X19.  A pointer-down that is no panning trigger and hits no rotation
    control and no label, on a point where [findLineAtPoint] finds a line,
    selects that committed line and copies its colour, opacity (times 100),
    label, rotation and thickness to the panel; it begins no line and
    changes neither the committed lines nor the interaction mode. *)
Theorem click_on_stroke_selects (measureText : string -> R) (now : string)
    (e : MouseEvent) (s : State) (line : Line) :
  isPanTrigger e = false ->
  (forall sel, hoveredSelected s = Some sel ->
     isPointNearRotationControl measureText s (getCanvasCoordinates e s) sel
       = Some false
     /\ isPointNearLabel measureText s (getCanvasCoordinates e s) sel
        = Some false) ->
  (forall l, In l (lines s) ->
     isPointNearLabel measureText s (getCanvasCoordinates e s) l
       = Some false) ->
  findLineAtPoint s (getImageCoordinates s (getCanvasCoordinates e s))
    = Some line ->
  exists s',
    handleMouseDown measureText now e s = Some s'
    /\ selectedLine s' = Some line
    /\ In line (lines s)
    /\ color s' = Line.color line
    /\ opacity s' = Line.opacity line * 100
    /\ label s' = Line.label line
    /\ labelRotation s' = Line.labelRotation line
    /\ (LineThickness (Line.thickness line) ->
        thickness s' = Line.thickness line)
    /\ interactionMode s' = interactionMode s
    /\ lines s' = lines s
    /\ currentLine s' = currentLine s
    /\ isDrawing s' = isDrawing s.
Proof.
  intros Hp Hsel Hlab Hfind. unfold handleMouseDown. rewrite Hp.
  rewrite startOnSelected_none by exact Hsel. simpl.
  rewrite findLabelAt_none by exact Hlab. simpl.
  rewrite Hfind. eexists. split; [reflexivity |]. simpl.
  split; [reflexivity |].
  split; [unfold findLineAtPoint in Hfind; now apply findLineIn_some in Hfind |].
  split; [reflexivity |]. split; [reflexivity |]. split; [reflexivity |].
  split; [apply orDefault_zero |]. split.
  - intros Ht. apply orDefault_nonzero.
    destruct Ht as [-> | [-> | ->]]; lra.
  - repeat split.
Qed.

Lemma unit_scale_click_image_point :
  getImageCoordinates unitScaleState
    (getCanvasCoordinates (leftClickAt 50 1) unitScaleState)
  = mkPoint 50 1.
Proof.
  unfold getImageCoordinates, withinImageBounds, getCanvasCoordinates,
    imageX, imageY, effectiveScale. simpl. Rdecide. f_equal; field.
Qed.

Lemma thinLine_found :
  findLineAtPoint unitScaleState (mkPoint 50 1) = Some thinLine.
Proof.
  assert (H : lineHit unitScaleState (mkPoint 50 1) thinLine = true).
  { unfold lineHit. apply segmentHit_iff.
    exists 0%nat, (mkPoint 0 0), (mkPoint 100 0).
    split; [reflexivity |]. split; [reflexivity |].
    rewrite hitThreshold_thickness by (left; reflexivity). simpl.
    replace (1 * 2 / (1 * 1)) with 2 by field.
    exact thinLine_hit_at_unit_scale. }
  unfold findLineAtPoint. cbn [lines unitScaleState findLineIn].
  rewrite H. reflexivity.
Qed.

Lemma click_on_stroke_selects_witness :
  exists s',
    handleMouseDown fixedWidth "2" (leftClickAt 50 1) unitScaleState = Some s'
    /\ selectedLine s' = Some thinLine
    /\ interactionMode s' = interactionMode unitScaleState
    /\ currentLine s' = currentLine unitScaleState.
Proof.
  destruct (click_on_stroke_selects fixedWidth "2" (leftClickAt 50 1)
              unitScaleState thinLine)
    as (s' & E & S & _ & _ & _ & _ & _ & _ & M & _ & C & _).
  - reflexivity.
  - intros sel H. discriminate H.
  - intros l [<- | []]. reflexivity.
  - rewrite unit_scale_click_image_point. exact thinLine_found.
  - exists s'. repeat split; assumption.
Defined.

(** ** Touch *)

Section TouchProperties.

Variable measureText : string -> R.

(** X20.  A touch-start with a number of touches other than two does what a
    plain press of the left button at the first touch does, except that it
    leaves the cursor position alone. *)
Theorem touch_start_as_mouse_down (now : string) (first : Point)
    (others : list Point) (s : State) :
  List.length (first :: others) <> 2%nat ->
  handleTouchStart measureText now (first :: others) s
  = option_map (setCursorPosition (cursorPosition s))
      (handleMouseDown measureText now
         (mkMouseEvent 0 false (x first) (y first)) s).
Proof.
  intros Hlen. unfold handleTouchStart, handleMouseDown, getTouchCoordinates.
  apply Nat.eqb_neq in Hlen. cbn [nth_error bind]. rewrite Hlen.
  change (isPanTrigger (mkMouseEvent 0 false (x first) (y first)))
    with false.
  change (getCanvasCoordinates (mkMouseEvent 0 false (x first) (y first)) s)
    with (mkPoint (x first - x (canvasRect s)) (y first - y (canvasRect s))).
  set (c := mkPoint (x first - x (canvasRect s))
                    (y first - y (canvasRect s))).
  cbv beta iota zeta.
  assert (Tail :
    (onLabel <- findLabelAt measureText s c (lines s) ;;
     match onLabel with
     | Some line =>
         Some (setHoveredLabel (Some (Line.id line)) (handleSelectLine line s))
     | None =>
         match findLineAtPoint s (getImageCoordinates s c) with
         | Some touchedLine => Some (handleSelectLine touchedLine s)
         | None =>
             Some (handleStartDrawing now (x (getImageCoordinates s c))
                     (y (getImageCoordinates s c))
                     (setInteractionMode draw s))
         end
     end)
    = option_map (setCursorPosition (cursorPosition s))
        (onLabel <- findLabelAt measureText s c (lines s) ;;
         match onLabel with
         | Some line =>
             Some (setHoveredLabel (Some (Line.id line))
                     (handleSelectLine line
                        (setCursorPosition (Some c) s)))
         | None =>
             match findLineAtPoint s (getImageCoordinates s c) with
             | Some clickedLine =>
                 Some (handleSelectLine clickedLine
                         (setCursorPosition (Some c) s))
             | None =>
                 Some (handleStartDrawing now (x (getImageCoordinates s c))
                         (y (getImageCoordinates s c))
                         (setInteractionMode draw
                            (setCursorPosition (Some c) s)))
             end
         end)).
  { destruct (findLabelAt measureText s c (lines s)) as [[l |] |];
      cbn [bind option_map]; [reflexivity | | reflexivity].
    destruct (findLineAtPoint s (getImageCoordinates s c));
      cbn [option_map]; [reflexivity |].
    unfold handleStartDrawing. cbn [selectedLine setInteractionMode
                                      setCursorPosition].
    destruct (selectedLine s); reflexivity. }
  unfold startOnSelected.
  destruct (hoveredSelected s) as [sel |]; [| exact Tail].
  destruct (isPointNearRotationControl measureText s c sel) as [[|] |];
    cbn [bind option_map]; [| | reflexivity].
  - destruct (labelScreenPosition s sel); reflexivity.
  - destruct (isPointNearLabel measureText s c sel) as [[|] |];
      cbn [bind option_map]; [reflexivity | exact Tail | reflexivity].
Qed.

Lemma two_finger_moves (es : list (list Point)) (s : State) :
  isPanning s = true ->
  Forall (fun touches => List.length touches = 2%nat) es ->
  exists s',
    handleTouchMoves es s = Some s'
    /\ setCursorPosition (cursorPosition s) s' = s.
Proof.
  intros Hp Hall. revert s Hp.
  induction Hall as [| touches es Hlen Hall IH]; intros s Hp.
  - exists s. split; [reflexivity |]. destruct s; reflexivity.
  - destruct touches as [| a [| b [| c rest]]]; try discriminate Hlen.
    cbn [handleTouchMoves]. unfold handleTouchMove, getTouchCoordinates.
    cbn [nth_error bind List.length Nat.eqb]. rewrite Hp.
    cbn [andb bind].
    match goal with
    | |- exists s', handleTouchMoves _ ?s1 = _ /\ _ =>
        destruct (IH s1 Hp) as (s' & E & K)
    end.
    exists s'. split; [exact E |].
    destruct s, s'. unfold setCursorPosition in *. simpl in *.
    injection K as -> -> -> -> -> -> -> -> -> -> -> -> -> -> -> -> -> -> -> ->
      -> -> ->.
    reflexivity.
Qed.

(** X21.  A two-finger gesture is inert: from a state at rest, a
    touch-start with two touches, any number of two-finger moves and the
    touch-end leave every cell but the cursor position as it was; lines,
    zoom level and pan offset included. *)
Theorem two_finger_gesture_is_inert (now : string) (touches : list Point)
    (es : list (list Point)) (s : State) :
  atRest s ->
  List.length touches = 2%nat ->
  Forall (fun t => List.length t = 2%nat) es ->
  exists s1 s2 s3,
    handleTouchStart measureText now touches s = Some s1
    /\ handleTouchMoves es s1 = Some s2
    /\ handleTouchEnd s2 = Some s3
    /\ setCursorPosition (cursorPosition s) s3 = s.
Proof.
  intros (Hm & Hd & Hp & Hdl) Hlen Hall.
  destruct touches as [| a [| b [| c rest]]]; try discriminate Hlen.
  unfold handleTouchStart, getTouchCoordinates.
  cbn [nth_error bind List.length Nat.eqb].
  destruct (two_finger_moves es (setIsPanning true s) eq_refl Hall)
    as (s2 & E2 & K).
  exists (setIsPanning true s), s2. 
  assert (Hs2 : isPanning s2 = true /\ interactionMode s2 = draw
                /\ isDraggingLabel s2 = false /\ isDrawing s2 = false).
  { destruct s, s2. unfold setCursorPosition, setIsPanning in K.
    simpl in *. injection K as ? ? ? ? ? ? ? ? ? ? ? ? ? ? ? ? ? ? ? ? ? ?.
    subst. repeat split; assumption. }
  destruct Hs2 as (P2 & M2 & D2 & W2).
  unfold handleTouchEnd, handleEndDrawing. rewrite P2, M2, D2. simpl.
  rewrite W2. simpl. eexists. split; [reflexivity |].
  split; [exact E2 |]. split; [reflexivity |].
  destruct s, s2. unfold setCursorPosition, setIsPanning in *.
  simpl in *. injection K as ? ? ? ? ? ? ? ? ? ? ? ? ? ? ? ? ? ? ? ? ? ?.
  subst. reflexivity.
Qed.

End TouchProperties.

Lemma touch_start_as_mouse_down_witness :
  handleTouchStart fixedWidth "2" [mkPoint 200 200] oneLineState
  = option_map (setCursorPosition (cursorPosition oneLineState))
      (handleMouseDown fixedWidth "2" (mkMouseEvent 0 false 200 200)
         oneLineState).
Proof.
  apply (touch_start_as_mouse_down fixedWidth "2" (mkPoint 200 200) []
           oneLineState).
  simpl. lia.
Defined.

Lemma two_finger_gesture_is_inert_witness :
  exists s1 s2 s3,
    handleTouchStart fixedWidth "2" [mkPoint 100 100; mkPoint 300 300]
      oneLineState = Some s1
    /\ handleTouchMoves [[mkPoint 90 90; mkPoint 310 310]] s1
       = Some s2
    /\ handleTouchEnd s2 = Some s3
    /\ setCursorPosition (cursorPosition oneLineState) s3 = oneLineState.
Proof.
  apply (two_finger_gesture_is_inert fixedWidth "2"
           [mkPoint 100 100; mkPoint 300 300]
           [[mkPoint 90 90; mkPoint 310 310]] oneLineState).
  - repeat split.
  - reflexivity.
  - constructor; [reflexivity | constructor].
Defined.

(** ** What is drawn is what is hit *)



(** ** Selecting, dragging and rotating a label *)

Section LabelGestures.

Variable measureText : string -> R.

Lemma labelScreenPosition_sameViewport (s s' : State) (line : Line) :
  sameViewport s s' ->
  labelScreenPosition s' line = labelScreenPosition s line.
Proof.
  intros (E1 & E2 & E3 & E4 & E5 & E6).
  unfold labelScreenPosition, imageX, imageY, effectiveScale.
  now rewrite E1, E2, E3, E4, E5.
Qed.

Lemma isPointNearLabel_sameViewport (s s' : State) (c : Point)
    (line : Line) :
  sameViewport s s' ->
  isPointNearLabel measureText s' c line
  = isPointNearLabel measureText s c line.
Proof.
  intros V. unfold isPointNearLabel.
  now rewrite (labelScreenPosition_sameViewport s s' line V).
Qed.

Lemma isPointNearRotationControl_sameViewport (s s' : State) (c : Point)
    (line : Line) :
  sameViewport s s' ->
  isPointNearRotationControl measureText s' c line
  = isPointNearRotationControl measureText s c line.
Proof.
  intros V. unfold isPointNearRotationControl.
  now rewrite (labelScreenPosition_sameViewport s s' line V).
Qed.

Lemma findLabelAt_some (s : State) (c : Point) (ls : list Line)
    (line : Line) :
  findLabelAt measureText s c ls = Some (Some line) ->
  In line ls /\ isPointNearLabel measureText s c line = Some true.
Proof.
  induction ls as [| l ls IH]; simpl; [discriminate |].
  destruct (Line.hasLabel l) eqn:Hl.
  - destruct (isPointNearLabel measureText s c l) as [[|] |] eqn:Hn;
      simpl; [| | discriminate].
    + intros H. injection H as <-. split; [now left | exact Hn].
    + intros H. destruct (IH H) as [Hin Hnear].
      split; [now right | exact Hnear].
  - simpl. intros H. destruct (IH H) as [Hin Hnear].
    split; [now right | exact Hnear].
Qed.

Lemma handleMouseDown_on_label (now : string) (e : MouseEvent) (s : State)
    (line : Line) :
  isPanTrigger e = false ->
  (forall sel, hoveredSelected s = Some sel ->
     isPointNearRotationControl measureText s (getCanvasCoordinates e s) sel
       = Some false
     /\ isPointNearLabel measureText s (getCanvasCoordinates e s) sel
        = Some false) ->
  findLabelAt measureText s (getCanvasCoordinates e s) (lines s)
    = Some (Some line) ->
  handleMouseDown measureText now e s
  = Some (setHoveredLabel (Some (Line.id line))
            (handleSelectLine line
               (setCursorPosition (Some (getCanvasCoordinates e s)) s))).
Proof.
  intros Hpan Hsel Hfind. unfold handleMouseDown. rewrite Hpan.
  rewrite startOnSelected_none by exact Hsel. simpl.
  rewrite Hfind. reflexivity.
Qed.

Lemma handleMouseUp_at_rest (s : State) :
  atRest s -> handleMouseUp s = Some (setInteractionMode draw s).
Proof.
  intros (Hm & Hd & Hp & Hdl). unfold handleMouseUp, handleEndDrawing.
  rewrite Hp, Hm, Hdl. simpl. rewrite Hd. reflexivity.
Qed.

Lemma handleMouseDown_on_selected_label (now : string) (e : MouseEvent)
    (s : State) (sel : Line) :
  isPanTrigger e = false ->
  hoveredSelected s = Some sel ->
  isPointNearRotationControl measureText s (getCanvasCoordinates e s) sel
    = Some false ->
  isPointNearLabel measureText s (getCanvasCoordinates e s) sel
    = Some true ->
  handleMouseDown measureText now e s
  = Some (setInteractionMode drag
            (setIsDraggingLabel true
               (setCursorPosition (Some (getCanvasCoordinates e s)) s))).
Proof.
  intros Hpan Hh Hctl Hnear. unfold handleMouseDown, startOnSelected.
  rewrite Hpan, Hh, Hctl. simpl. rewrite Hnear. reflexivity.
Qed.

(** X23.  Click a label to select, press it again to drag: from a state at
    rest, a press on the label of a line that is the first under the
    pointer selects that line and marks its label as hovered; after the
    release, a second press at the same place, off the rotation control,
    puts the canvas in drag mode with that line still selected and the
    committed lines untouched. *)
Theorem second_press_on_label_drags (now now2 : string) (e : MouseEvent)
    (s : State) (line : Line) :
  atRest s ->
  isPanTrigger e = false ->
  (forall sel, hoveredSelected s = Some sel ->
     isPointNearRotationControl measureText s (getCanvasCoordinates e s) sel
       = Some false
     /\ isPointNearLabel measureText s (getCanvasCoordinates e s) sel
        = Some false) ->
  findLabelAt measureText s (getCanvasCoordinates e s) (lines s)
    = Some (Some line) ->
  isPointNearRotationControl measureText s (getCanvasCoordinates e s) line
    = Some false ->
  exists s1 s2 s3,
    handleMouseDown measureText now e s = Some s1
    /\ selectedLine s1 = Some line
    /\ hoveredLabel s1 = Some (Line.id line)
    /\ interactionMode s1 = draw
    /\ handleMouseUp s1 = Some s2
    /\ handleMouseDown measureText now2 e s2 = Some s3
    /\ interactionMode s3 = drag
    /\ isDraggingLabel s3 = true
    /\ selectedLine s3 = Some line
    /\ lines s3 = lines s
    /\ currentLine s3 = currentLine s.
Proof.
  intros Hrest Hpan Hsel Hfind Hctl.
  pose proof Hrest as (Hm & Hd & Hp & Hdl).
  destruct (findLabelAt_some _ _ _ _ Hfind) as [Hin Hnear].
  pose proof (handleMouseDown_on_label now e s line Hpan Hsel Hfind) as E1.
  remember (setHoveredLabel (Some (Line.id line))
              (handleSelectLine line
                 (setCursorPosition (Some (getCanvasCoordinates e s)) s)))
    as s1 eqn:Hs1.
  assert (F1 : selectedLine s1 = Some line
               /\ hoveredLabel s1 = Some (Line.id line)
               /\ lines s1 = lines s /\ currentLine s1 = currentLine s
               /\ atRest s1 /\ sameViewport s s1).
  { subst s1. unfold atRest, sameViewport. simpl. repeat split; assumption. }
  destruct F1 as (S1 & H1 & L1 & C1 & R1 & V1).
  pose proof (handleMouseUp_at_rest s1 R1) as E2.
  remember (setInteractionMode draw s1) as s2 eqn:Hs2.
  assert (F2 : selectedLine s2 = Some line
               /\ hoveredLabel s2 = Some (Line.id line)
               /\ lines s2 = lines s /\ currentLine s2 = currentLine s
               /\ sameViewport s s2).
  { subst s2. destruct V1 as (W1 & W2 & W3 & W4 & W5 & W6).
    unfold sameViewport. simpl. repeat split; assumption. }
  destruct F2 as (S2 & H2 & L2 & C2 & V2).
  assert (Hc2 : getCanvasCoordinates e s2 = getCanvasCoordinates e s).
  { unfold getCanvasCoordinates. destruct V2 as (_ & _ & _ & _ & _ & W6).
    now rewrite W6. }
  assert (Hh : hoveredSelected s2 = Some line).
  { unfold hoveredSelected. rewrite S2, H2. now rewrite String.eqb_refl. }
  assert (E3 : handleMouseDown measureText now2 e s2
               = Some (setInteractionMode drag
                         (setIsDraggingLabel true
                            (setCursorPosition
                               (Some (getCanvasCoordinates e s2)) s2)))).
  { apply (handleMouseDown_on_selected_label now2 e s2 line Hpan Hh).
    - rewrite Hc2.
      rewrite (isPointNearRotationControl_sameViewport s s2 _ line V2).
      exact Hctl.
    - rewrite Hc2.
      rewrite (isPointNearLabel_sameViewport s s2 _ line V2).
      exact Hnear. }
  exists s1, s2. eexists. split; [exact E1 |]. split; [exact S1 |].
  split; [exact H1 |]. split; [apply R1 |]. split; [exact E2 |].
  split; [exact E3 |]. simpl. repeat split; assumption.
Qed.

Lemma rotateLines_again (lineId : string) (a b : R) (ls : list Line) :
  rotateLines lineId b (rotateLines lineId a ls) = rotateLines lineId b ls.
Proof.
  unfold rotateLines. rewrite map_map. apply map_ext. intros l.
  destruct (String.eqb (Line.id l) lineId) eqn:E; simpl; rewrite E;
    reflexivity.
Qed.

Lemma moveLabels_again (lineId : string) (p q : Point) (ls : list Line) :
  moveLabels lineId q (moveLabels lineId p ls) = moveLabels lineId q ls.
Proof.
  unfold moveLabels. rewrite map_map. apply map_ext. intros l.
  destruct (String.eqb (Line.id l) lineId) eqn:E; simpl; rewrite E;
    reflexivity.
Qed.

Lemma rotating_moves (es : list MouseEvent) (e : MouseEvent) (s : State)
    (center : Point) (sel : Line) :
  isPanning s = false -> interactionMode s = rotate ->
  rotationCenter s = Some center -> selectedLine s = Some sel ->
  exists s',
    handleMouseMoves measureText (es ++ [e]) s = Some s'
    /\ labelRotation s' = snappedAngle center (getCanvasCoordinates e s)
    /\ lines s' =
         rotateLines (Line.id sel)
           (snappedAngle center (getCanvasCoordinates e s)) (lines s)
    /\ isPanning s' = false /\ interactionMode s' = rotate
    /\ selectedLine s' = Some sel /\ isDraggingLabel s' = isDraggingLabel s
    /\ currentLine s' = currentLine s /\ isDrawing s' = isDrawing s.
Proof.
  revert s. induction es as [| e1 es IH]; intros s Hp Hm Hc Hs.
  - simpl. rewrite (handleMouseMove_rotate measureText e s center Hp Hm Hc).
    simpl. eexists. split; [reflexivity |].
    unfold handleRotateLabel. simpl. rewrite Hs. simpl.
    repeat split; assumption.
  - simpl. rewrite (handleMouseMove_rotate measureText e1 s center Hp Hm Hc).
    simpl.
    set (s1 := handleRotateLabel _ _).
    assert (F : isPanning s1 = false /\ interactionMode s1 = rotate
                /\ rotationCenter s1 = Some center
                /\ selectedLine s1 = Some sel
                /\ canvasRect s1 = canvasRect s
                /\ isDraggingLabel s1 = isDraggingLabel s
                /\ currentLine s1 = currentLine s
                /\ isDrawing s1 = isDrawing s
                /\ exists a, lines s1 = rotateLines (Line.id sel) a (lines s)).
    { unfold s1, handleRotateLabel. simpl. rewrite Hs. simpl.
      repeat split; try assumption. eexists. reflexivity. }
    destruct F as (F1 & F2 & F3 & F4 & F5 & F6 & F7 & F8 & a & F9).
    destruct (IH s1 F1 F2 F3 F4)
      as (s' & E & R & L & P & M & S & D & C & W).
    exists s'. split; [exact E |].
    assert (Hcc : getCanvasCoordinates e s1 = getCanvasCoordinates e s)
      by (unfold getCanvasCoordinates; now rewrite F5).
    rewrite Hcc in R, L. rewrite F9, rotateLines_again in L.
    repeat split; congruence.
Qed.

(** X24.  The rotation of a label follows the pointer, not the way it
    came: after any moves in rotate mode, the edit field holds the snapped
    angle of the last pointer position about the rotation center, the
    committed lines are the ones before the gesture with that angle on the
    lines of the selected identifier, and the release ends the gesture in
    draw mode without changing them. *)
Theorem rotation_follows_last_move (es : list MouseEvent) (e : MouseEvent)
    (s : State) (center : Point) (sel : Line) :
  isPanning s = false ->
  interactionMode s = rotate ->
  rotationCenter s = Some center ->
  selectedLine s = Some sel ->
  exists s1 s2,
    handleMouseMoves measureText (es ++ [e]) s = Some s1
    /\ handleMouseUp s1 = Some s2
    /\ labelRotation s2 = snappedAngle center (getCanvasCoordinates e s)
    /\ lines s2 =
         rotateLines (Line.id sel)
           (snappedAngle center (getCanvasCoordinates e s)) (lines s)
    /\ interactionMode s2 = draw
    /\ rotationCenter s2 = None
    /\ isRotatingLabel s2 = false
    /\ selectedLine s2 = Some sel.
Proof.
  intros Hp Hm Hc Hs.
  destruct (rotating_moves es e s center sel Hp Hm Hc Hs)
    as (s1 & E & R & L & P & M & S & _).
  exists s1. unfold handleMouseUp. rewrite P, M. simpl.
  destruct (isDraggingLabel s1); eexists; (split; [exact E |]);
    (split; [reflexivity |]); simpl; repeat split; assumption.
Qed.

Lemma dragging_moves (es : list MouseEvent) (e : MouseEvent) (s : State)
    (sel : Line) :
  isPanning s = false -> interactionMode s = drag ->
  isDraggingLabel s = true -> selectedLine s = Some sel ->
  exists s',
    handleMouseMoves measureText (es ++ [e]) s = Some s'
    /\ lines s' =
         moveLabels (Line.id sel)
           (getImageCoordinates s (getCanvasCoordinates e s)) (lines s)
    /\ isPanning s' = false /\ interactionMode s' = drag
    /\ isDraggingLabel s' = true /\ selectedLine s' = Some sel
    /\ currentLine s' = currentLine s /\ isDrawing s' = isDrawing s.
Proof.
  revert s. induction es as [| e1 es IH]; intros s Hp Hm Hd Hs.
  - simpl. rewrite (handleMouseMove_drag measureText e s sel Hp Hm Hd Hs).
    simpl. eexists. split; [reflexivity |]. simpl.
    repeat split; assumption.
  - simpl. rewrite (handleMouseMove_drag measureText e1 s sel Hp Hm Hd Hs).
    simpl.
    set (s1 := handleUpdateLabelPosition _ _ _).
    assert (V : sameViewport s s1)
      by (unfold sameViewport, s1; simpl; repeat split).
    assert (L1 : exists p1, lines s1 = moveLabels (Line.id sel) p1 (lines s))
      by (eexists; reflexivity).
    destruct L1 as [p1 L1].
    assert (F : currentLine s1 = currentLine s /\ isDrawing s1 = isDrawing s)
      by (split; reflexivity).
    destruct F as [F1 F2].
    destruct (IH s1 Hp Hm Hd Hs) as (s' & E & L & P & M & D & S & C & W).
    exists s'. split; [exact E |].
    rewrite (getImageCoordinates_sameViewport s s1 e V) in L.
    rewrite L1, moveLabels_again in L.
    repeat split; congruence.
Qed.

(** X25.  A dragged label ends where the pointer was last: after any moves
    in drag mode, the lines of the selected identifier have as label
    position the image coordinates of the last pointer position ((0, 0)
    when that is outside the image), the other lines are as before, and the
    release ends the gesture in draw mode without changing them. *)
Theorem drag_follows_last_move (es : list MouseEvent) (e : MouseEvent)
    (s : State) (sel : Line) :
  isPanning s = false ->
  interactionMode s = drag ->
  isDraggingLabel s = true ->
  selectedLine s = Some sel ->
  exists s1 s2,
    handleMouseMoves measureText (es ++ [e]) s = Some s1
    /\ handleMouseUp s1 = Some s2
    /\ lines s2 =
         moveLabels (Line.id sel)
           (getImageCoordinates s (getCanvasCoordinates e s)) (lines s)
    /\ interactionMode s2 = draw
    /\ isDraggingLabel s2 = false
    /\ selectedLine s2 = Some sel.
Proof.
  intros Hp Hm Hd Hs.
  destruct (dragging_moves es e s sel Hp Hm Hd Hs)
    as (s1 & E & L & P & M & D & S & _).
  exists s1. unfold handleMouseUp. rewrite P, M, D. simpl.
  eexists. split; [exact E |]. split; [reflexivity |].
  simpl. repeat split; assumption.
Qed.

End LabelGestures.

Lemma label_pressed_off_control :
  findLabelAt fixedWidth oneLabelState
    (getCanvasCoordinates (leftClickAt 110 105) oneLabelState)
    (lines oneLabelState) = Some (Some labelledLine)
  /\ isPointNearRotationControl fixedWidth oneLabelState
       (getCanvasCoordinates (leftClickAt 110 105) oneLabelState)
       labelledLine = Some false.
Proof.
  split.
  - cbn [lines oneLabelState setLines findLabelAt].
    assert (H : isPointNearLabel fixedWidth oneLabelState
                  (getCanvasCoordinates (leftClickAt 110 105) oneLabelState)
                  labelledLine = Some true).
    { unfold isPointNearLabel, labelScreenPosition, imageX, imageY,
        effectiveScale, fixedWidth. simpl.
      rewrite !Rleb_true by lra. reflexivity. }
    change (Line.hasLabel labelledLine) with true. cbv iota.
    rewrite H. reflexivity.
  - unfold isPointNearRotationControl, labelScreenPosition, imageX, imageY,
      effectiveScale, fixedWidth. simpl. f_equal. apply Rleb_false.
    apply Rle_lt_trans with (sqrt (8 * 8)); [rewrite sqrt_square; lra |].
    apply sqrt_lt_1_alt. lra.
Qed.

Lemma second_press_on_label_drags_witness :
  exists s1 s2 s3,
    handleMouseDown fixedWidth "2" (leftClickAt 110 105) oneLabelState
      = Some s1
    /\ selectedLine s1 = Some labelledLine
    /\ handleMouseUp s1 = Some s2
    /\ handleMouseDown fixedWidth "3" (leftClickAt 110 105) s2 = Some s3
    /\ interactionMode s3 = drag.
Proof.
  destruct (second_press_on_label_drags fixedWidth "2" "3"
              (leftClickAt 110 105) oneLabelState labelledLine)
    as (s1 & s2 & s3 & E1 & S1 & _ & _ & E2 & E3 & M3 & _).
  - repeat split.
  - reflexivity.
  - intros sel H. discriminate H.
  - exact (proj1 label_pressed_off_control).
  - exact (proj2 label_pressed_off_control).
  - exists s1, s2, s3. repeat split; assumption.
Defined.

Lemma rotation_follows_last_move_witness :
  exists s1 s2,
    handleMouseMoves fixedWidth ([pointerAt 200 100] ++ [pointerAt 100 300])
      rotatingState = Some s1
    /\ handleMouseUp s1 = Some s2
    /\ labelRotation s2
       = snappedAngle (mkPoint 100 100)
           (getCanvasCoordinates (pointerAt 100 300) rotatingState)
    /\ interactionMode s2 = draw.
Proof.
  destruct (rotation_follows_last_move fixedWidth [pointerAt 200 100]
              (pointerAt 100 300) rotatingState (mkPoint 100 100)
              labelledLine eq_refl eq_refl eq_refl eq_refl)
    as (s1 & s2 & E1 & E2 & R & _ & M & _).
  exists s1, s2. repeat split; assumption.
Defined.

Lemma drag_follows_last_move_witness :
  exists s1 s2,
    handleMouseMoves fixedWidth ([pointerAt 900 100] ++ [pointerAt 200 200])
      draggingState = Some s1
    /\ handleMouseUp s1 = Some s2
    /\ lines s2 =
         moveLabels (Line.id labelledLine)
           (getImageCoordinates draggingState
              (getCanvasCoordinates (pointerAt 200 200) draggingState))
           (lines draggingState)
    /\ interactionMode s2 = draw.
Proof.
  destruct (drag_follows_last_move fixedWidth [pointerAt 900 100]
              (pointerAt 200 200) draggingState labelledLine
              eq_refl eq_refl eq_refl eq_refl)
    as (s1 & s2 & E1 & E2 & L & M & _).
  exists s1, s2. repeat split; assumption.
Defined.
